(** * streamlit_main.py: the salary advance and loan calculator front end

    A shallow embedding of [src/streamlit_main.py].  The script is a
    Streamlit page: it reads widget values, posts one JSON request to the
    FastAPI backend and renders the decoded answer.  The embedding keeps

    - Python values as the dynamically typed [pyval] (decoded JSON, floats
      as binary64 primitive floats, dictionaries as insertion-ordered
      association lists);
    - the page as a trace of widgets, in the order the script emits them,
      and the network as a log of the requests sent;
    - exceptions as an explicit outcome: what was drawn before an
      exception is raised stays on the page. *)

From Stdlib Require Import ZArith List String Ascii Bool Floats Lia DecimalString.
Import ListNotations.

Set Implicit Arguments.
Set Warnings "-register-all,-inexact-float".
Open Scope string_scope.
Open Scope list_scope.
Open Scope Z_scope.

(** ** Python values *)

Inductive pyval : Type :=
| PNone
| PBool (b : bool)
| PInt (n : Z)
| PFloat (x : float)
| PStr (s : string)
| PList (items : list pyval)
| PDict (entries : list (string * pyval)).

(** The exceptions the script can meet outside [make_request]'s [try]. *)
Inductive exn : Type :=
| AttributeError
| TypeError
| ValueError
| OverflowError
| KeyError (key : string).

Inductive outcome (A : Type) : Type :=
| Ok (a : A)
| Raise (e : exn).
Arguments Ok {A} a.
Arguments Raise {A} e.

(** [bool(v)]: the truth value Python's [if v:] and [not v] test. *)
Definition truthy (v : pyval) : bool :=
  match v with
  | PNone => false
  | PBool b => b
  | PInt n => negb (n =? 0)
  | PFloat x => negb (PrimFloat.eqb x 0%float)
  | PStr s => negb (String.eqb s "")
  | PList items => match items with [] => false | _ :: _ => true end
  | PDict entries => match entries with [] => false | _ :: _ => true end
  end.

Fixpoint lookup (key : string) (entries : list (string * pyval)) : option pyval :=
  match entries with
  | [] => None
  | (k, v) :: rest => if String.eqb k key then Some v else lookup key rest
  end.

(** [d.get(key, default)]; only a dict has the attribute [get]. *)
Definition get (d : pyval) (key : string) (default : pyval) : outcome pyval :=
  match d with
  | PDict entries =>
      Ok (match lookup key entries with Some v => v | None => default end)
  | _ => Raise AttributeError
  end.

(** The characters of a [str], as Python iterates them: a string here
    is its UTF-8 bytes, and a character is a lead byte with the
    continuation bytes (10xxxxxx) that follow it. *)
Definition continuation (c : ascii) : bool :=
  match c with
  | Ascii _ _ _ _ _ _ false true => true
  | _ => false
  end.

Fixpoint chars_from (current : string) (s : string) : list string :=
  match s with
  | EmptyString => [current]
  | String c rest =>
      if continuation c then chars_from (current ++ String c "")%string rest
      else current :: chars_from (String c "") rest
  end.

Definition chars (s : string) : list string :=
  match s with
  | EmptyString => []
  | String c rest => chars_from (String c "") rest
  end.

(** [iter(v)]: what a [for] loop over [v] visits. *)
Definition iterate (v : pyval) : outcome (list pyval) :=
  match v with
  | PList items => Ok items
  | PStr s => Ok (map PStr (chars s))
  | PDict entries => Ok (map (fun kv => PStr (fst kv)) entries)
  | PNone | PBool _ | PInt _ | PFloat _ => Raise TypeError
  end.

(** ** Formatted string literals

    An f-string is a list of literal parts and replacement fields.  Its
    value is a [text]: real characters wherever [str()] of the field is
    computed here (strings, integers, booleans and [None] with an empty
    format spec), and a [Rendered] hole for what CPython's float and
    container formatting would print.  Evaluation raises what [format]
    raises. *)

Inductive part : Type :=
| s_ (literal : string)
| field (v : pyval) (spec : string).

Inductive piece : Type :=
| Lit (chars : string)
| Rendered (v : pyval) (spec : string).

Definition text := list piece.

(** [int.__format__] with a float presentation type converts through
    [float(n)], which overflows from 2^1024 - 2^970 on. *)
Definition fits_float (n : Z) : bool := Z.abs n <? 2 ^ 1024 - 2 ^ 970.

Definition format_error (v : pyval) (spec : string) : option exn :=
  if String.eqb spec "" then None
  else match v with
       | PFloat _ | PBool _ => None
       | PInt n => if fits_float n then None else Some OverflowError
       | PStr _ => Some ValueError
       | PNone | PList _ | PDict _ => Some TypeError
       end.

Definition str_int (n : Z) : string := NilZero.string_of_int (Z.to_int n).

Definition render (v : pyval) (spec : string) : piece :=
  if String.eqb spec "" then
    match v with
    | PStr s => Lit s
    | PInt n => Lit (str_int n)
    | PBool b => Lit (if b then "True" else "False")
    | PNone => Lit "None"
    | _ => Rendered v spec
    end
  else Rendered v spec.

Definition glue (p : piece) (t : text) : text :=
  match p, t with
  | Lit a, Lit b :: t' => Lit (a ++ b)%string :: t'
  | _, _ => p :: t
  end.

Fixpoint first_format_error (parts : list part) : option exn :=
  match parts with
  | [] => None
  | s_ _ :: rest => first_format_error rest
  | field v spec :: rest =>
      match format_error v spec with
      | Some e => Some e
      | None => first_format_error rest
      end
  end.

Fixpoint join_parts (parts : list part) : text :=
  match parts with
  | [] => []
  | s_ literal :: rest => glue (Lit literal) (join_parts rest)
  | field v spec :: rest => glue (render v spec) (join_parts rest)
  end.

Definition fstring (parts : list part) : outcome text :=
  match first_format_error parts with
  | Some e => Raise e
  | None => Ok (join_parts parts)
  end.

(** ** pandas frames

    A model of the part of pandas the script uses, on data that is a
    list of records.  A frame is column oriented.  A cell of a column of
    objects keeps the decoded value it was built from; a column of numbers
    with a float or a gap among them is held as float64 (see
    [series_of]). *)

Module pd.

Inductive cell : Type :=
| Obj (v : pyval)
| NaN
| Timestamp (parsed_from : pyval)
| NaT
| Str (t : text).

Record DataFrame : Type := mkFrame
  { index : option (string * list cell);
    columns : list (string * list cell) }.

(** Delimited text: the lines of fields, and the bytes of its encoding. *)
Definition csv : Type := list (list cell).

Record encoded : Type := mkEncoded
  { codec : string; decoded : csv }.

End pd.

(** ** The page and the wire *)

Inductive place : Type :=
| Main
| Column (i : nat).

Inductive widget : Type :=
| WSubheader (body : string)
| WMarkdown (body : string)
| WSpinner (label : string)
| WColumns (widths : list Z)
| WSuccess (body : text)
| WError (body : text)
| WWarning (body : text)
| WInfo (body : text)
| WText (body : text)
| WMetric (label : string) (value : text) (help : option string)
| WDataframe (data : pd.DataFrame) (use_container_width : bool)
| WDownloadButton (label : string) (data : pd.encoded) (file_name : text)
    (mime : string).

Record request : Type := mkRequest
  { verb : string; url : string; json : pyval }.

Record world : Type := mkWorld
  { container : place;
    screen : list (place * widget);
    wire : list request }.

Definition blank : world :=
  {| container := Main; screen := []; wire := [] |}.

(** ** The script's monad: page and wire threaded, exceptions propagated *)

Definition M (A : Type) : Type := world -> outcome A * world.

Definition ret {A} (a : A) : M A := fun w => (Ok a, w).

Definition bind {A B} (c : M A) (k : A -> M B) : M B :=
  fun w => match c w with
           | (Ok a, w') => k a w'
           | (Raise e, w') => (Raise e, w')
           end.

Definition lift {A} (o : outcome A) : M A := fun w => (o, w).

Notation "x <- c ;; k" := (bind c (fun x => k))
  (at level 61, c at next level, right associativity).
Notation "c ;; k" := (bind c (fun _ => k))
  (at level 61, right associativity).

Fixpoint for_each (items : list pyval) (body : pyval -> M unit) : M unit :=
  match items with
  | [] => ret tt
  | item :: rest => body item ;; for_each rest body
  end.

(** [for item in v: body] *)
Definition for_in (v : pyval) (body : pyval -> M unit) : M unit :=
  items <- lift (iterate v) ;;
  for_each items body.

Definition run {A} (c : M A) : outcome A * world := c blank.
Definition page {A} (c : M A) : list (place * widget) := screen (snd (run c)).
Definition sent {A} (c : M A) : list request := wire (snd (run c)).
Definition result_of {A} (c : M A) : outcome A := fst (run c).

(** ** Streamlit calls *)

Module st.

Definition emit (x : widget) : M unit :=
  fun w => (Ok tt, {| container := container w;
                      screen := screen w ++ [(container w, x)];
                      wire := wire w |}).

(** [with col:] draws the body inside the column and leaves it after. *)
Definition within {A} (p : place) (body : M A) : M A :=
  fun w =>
    let '(o, w') := body {| container := p; screen := screen w; wire := wire w |} in
    (o, {| container := container w; screen := screen w'; wire := wire w' |}).

Definition subheader (body : string) : M unit := emit (WSubheader body).
Definition markdown (body : string) : M unit := emit (WMarkdown body).
Definition spinner (label : string) : M unit := emit (WSpinner label).
Definition columns (widths : list Z) : M unit := emit (WColumns widths).
Definition success (body : text) : M unit := emit (WSuccess body).
Definition error (body : text) : M unit := emit (WError body).
Definition warning (body : text) : M unit := emit (WWarning body).
Definition info (body : text) : M unit := emit (WInfo body).
Definition write (body : text) : M unit := emit (WText body).
Definition metric (label : string) (value : text) (help : option string) : M unit :=
  emit (WMetric label value help).
Definition dataframe (data : pd.DataFrame) (use_container_width : bool) : M unit :=
  emit (WDataframe data use_container_width).
Definition download_button (label : string) (data : pd.encoded)
    (file_name : text) (mime : string) : M unit :=
  emit (WDownloadButton label data file_name mime).

End st.

(** A literal string passed where Streamlit takes a body. *)
Definition plain (s : string) : text := [Lit s].

(** ** requests

    What one [requests.post] followed by [raise_for_status] and [json]
    comes to: the decoded body, or the exception raised on the way, by
    the [except] clause that catches it. *)

Module requests.

Inductive raised : Type :=
| ConnectionError (str : string)
| RequestException (str : string)
| Exception (str : string).

Inductive attempt : Type :=
| Responded (body : pyval)
| Failed (e : raised).

End requests.

Definition FASTAPI_BACKEND_URL : string := "http://backend:8000".

Section App.

(** The backend and the network between: what a POST of a payload to a
    URL comes to. *)
Variable backend : string -> pyval -> requests.attempt.

(** pandas' date parser: which strings [pd.to_datetime] accepts. *)
Variable parses_as_datetime : string -> bool.

Definition post (url : string) (json : pyval) : M requests.attempt :=
  fun w => (Ok (backend url json),
            {| container := container w;
               screen := screen w;
               wire := wire w ++ [mkRequest "POST" url json] |}).

Definition make_request (endpoint : string) (payload : pyval) : M (pyval * pyval) :=
  response <- post (FASTAPI_BACKEND_URL ++ "/" ++ endpoint)%string payload ;;
  match response with
  | requests.Responded body => ret (body, PNone)
  | requests.Failed (requests.ConnectionError _) =>
      ret (PNone, PStr ("Could not connect to backend at " ++ FASTAPI_BACKEND_URL)%string)
  | requests.Failed (requests.RequestException e) =>
      ret (PNone, PStr ("Request error: " ++ e)%string)
  | requests.Failed (requests.Exception e) =>
      ret (PNone, PStr ("Unexpected error: " ++ e)%string)
  end.

Definition display_result (result error_msg : pyval) : M pyval :=
  if truthy error_msg then
    st.error [render error_msg ""] ;;
    ret PNone
  else
    flag <- lift (get result "error" PNone) ;;
    if truthy flag then
      message <- lift (get result "error_message" (PStr "Unknown error")) ;;
      body <- lift (fstring [s_ "Error: "; field message ""]) ;;
      st.error body ;;
      ret PNone
    else
      ret result.

Definition display_eligibility_details (eligibility_details : pyval) : M unit :=
  if negb (truthy eligibility_details) then ret tt
  else
    st.subheader "📋 Eligibility Criteria Check" ;;
    st.columns [2; 2] ;;
    st.within (Column 1)
      (salary_check <- lift (get eligibility_details "salary_check" PNone) ;;
       (if truthy salary_check
        then st.success (plain "✅ Minimum salary requirement met")
        else st.error (plain "❌ Minimum salary requirement not met")) ;;
       pay_frequency_check <- lift (get eligibility_details "pay_frequency_check" PNone) ;;
       (if truthy pay_frequency_check
        then st.success (plain "✅ Valid pay frequency")
        else st.error (plain "❌ Invalid pay frequency")) ;;
       amount_check <- lift (get eligibility_details "amount_check" PNone) ;;
       (if truthy amount_check
        then st.success (plain "✅ Valid advance amount")
        else st.error (plain "❌ Invalid advance amount")) ;;
       advance_limit_check <- lift (get eligibility_details "advance_limit_check" PNone) ;;
       (if truthy advance_limit_check
        then st.success (plain "✅ Within advance limit")
        else st.error (plain "❌ Exceeds maximum advance limit"))) ;;
    max_eligible <- st.within (Column 2)
      (max_eligible <- lift (get eligibility_details "max_eligible_advance" PNone) ;;
       match max_eligible with
       | PNone => ret max_eligible
       | _ =>
           value <- lift (fstring [s_ "UGX "; field max_eligible ",.2f"]) ;;
           st.metric "Max Eligible Advance" value
             (Some "Maximum advance amount you can request based on your salary") ;;
           ret max_eligible
       end) ;;
    failed_criteria <- lift (get eligibility_details "failed_criteria" (PList [])) ;;
    if truthy failed_criteria then
      st.subheader "❌ Issues to Address:" ;;
      for_in failed_criteria (fun criterion =>
        body <- lift (fstring [s_ "• "; field criterion ""]) ;;
        st.error body) ;;
      st.subheader "💡 How to Become Eligible:" ;;
      salary_check <- lift (get eligibility_details "salary_check" PNone) ;;
      (if negb (truthy salary_check)
       then st.info (plain "• Increase your gross salary to at least UGX 200,000")
       else ret tt) ;;
      advance_limit_check <- lift (get eligibility_details "advance_limit_check" PNone) ;;
      (if negb (truthy advance_limit_check) && truthy max_eligible
       then
         body <- lift (fstring [s_ "• Reduce your requested advance amount to UGX ";
                                field max_eligible ",.2f"; s_ " or less"]) ;;
         st.info body
       else ret tt) ;;
      pay_frequency_check <- lift (get eligibility_details "pay_frequency_check" PNone) ;;
      (if negb (truthy pay_frequency_check)
       then st.info (plain "• Ensure your pay frequency is one of: Weekly, Bi-weekly, Semi-monthly, or Monthly")
       else ret tt)
    else ret tt.

(** *** pandas, as the loan flow calls it *)

(** [pd.DataFrame] on data that is not a list of records: left to
    pandas. *)
Variable DataFrame_of_other : pyval -> outcome pd.DataFrame.

Fixpoint records (items : list pyval) : option (list (list (string * pyval))) :=
  match items with
  | [] => Some []
  | PDict entries :: rest =>
      match records rest with
      | Some rs => Some (entries :: rs)
      | None => None
      end
  | _ :: _ => None
  end.

Definition mem (name : string) (names : list string) : bool :=
  existsb (String.eqb name) names.

(** Column labels: the keys of the records, by first appearance. *)
Fixpoint add_keys (seen : list string) (entries : list (string * pyval)) : list string :=
  match entries with
  | [] => seen
  | (k, _) :: rest => add_keys (if mem k seen then seen else seen ++ [k]) rest
  end.

Definition labels (rs : list (list (string * pyval))) : list string :=
  fold_left add_keys rs [].

(** A cell of a column of objects: the value of the record, NaN where
    the record has no such key. *)
Definition cell_of (key : string) (entries : list (string * pyval)) : pd.cell :=
  match lookup key entries with
  | Some v => pd.Obj v
  | None => pd.NaN
  end.

(** The dtype of a column.  A column whose values are floats, integers of
    the int64 range, [None] and gaps is held as float64 as soon as it has
    a float or a gap, or [None] beside an integer: the integers are
    converted and [None] and the gaps become NaN.  Integers alone stay
    integers, [None] alone stays [None], and any other value (a string, a
    boolean, a container, an integer outside the int64 range) keeps the
    column as objects. *)
Definition int64 (n : Z) : bool := (- 2 ^ 63 <=? n) && (n <? 2 ^ 63).

Definition numeric (v : option pyval) : bool :=
  match v with
  | None | Some PNone | Some (PFloat _) => true
  | Some (PInt n) => int64 n
  | Some _ => false
  end.

Definition is_float (v : option pyval) : bool :=
  match v with Some (PFloat _) => true | _ => false end.

Definition is_int (v : option pyval) : bool :=
  match v with Some (PInt _) => true | _ => false end.

Definition is_null (v : option pyval) : bool :=
  match v with Some PNone => true | _ => false end.

Definition is_gap (v : option pyval) : bool :=
  match v with None => true | _ => false end.

Definition float64 (values : list (option pyval)) : bool :=
  forallb numeric values
  && (existsb is_float values
      || existsb is_gap values
      || (existsb is_int values && existsb is_null values)).

(** [float(n)]: the binary64 nearest to an integer, ties to even. *)
Definition float_of_int (n : Z) : float :=
  SF2Prim (binary_normalize prec emax n 0 false).

(** A cell of a float64 column. *)
Definition float_cell (v : option pyval) : pd.cell :=
  match v with
  | Some (PFloat x) => pd.Obj (PFloat x)
  | Some (PInt n) => pd.Obj (PFloat (float_of_int n))
  | _ => pd.NaN
  end.

(** The column of a key over the records. *)
Definition series_of (key : string) (rs : list (list (string * pyval))) : list pd.cell :=
  let values := map (lookup key) rs in
  if float64 values then map float_cell values else map (cell_of key) rs.

Definition DataFrame (data : pyval) : outcome pd.DataFrame :=
  match data with
  | PList items =>
      match records items with
      | Some rs =>
          Ok (pd.mkFrame None
                (map (fun key => (key, series_of key rs)) (labels rs)))
      | None => DataFrame_of_other data
      end
  | _ => DataFrame_of_other data
  end.

Fixpoint column (name : string) (cols : list (string * list pd.cell)) : option (list pd.cell) :=
  match cols with
  | [] => None
  | (k, cells) :: rest => if String.eqb k name then Some cells else column name rest
  end.

(** [df[name]] *)
Definition getitem (df : pd.DataFrame) (name : string) : outcome (list pd.cell) :=
  match column name (pd.columns df) with
  | Some cells => Ok cells
  | None => Raise (KeyError name)
  end.

Fixpoint replace_column (name : string) (cells : list pd.cell)
    (cols : list (string * list pd.cell)) : list (string * list pd.cell) :=
  match cols with
  | [] => [(name, cells)]
  | (k, old) :: rest =>
      if String.eqb k name then (k, cells) :: rest
      else (k, old) :: replace_column name cells rest
  end.

(** [df[name] = cells] *)
Definition setitem (df : pd.DataFrame) (name : string) (cells : list pd.cell) : pd.DataFrame :=
  pd.mkFrame (pd.index df) (replace_column name cells (pd.columns df)).

Fixpoint traverse {A B} (f : A -> outcome B) (l : list A) : outcome (list B) :=
  match l with
  | [] => Ok []
  | a :: rest =>
      match f a with
      | Raise e => Raise e
      | Ok b =>
          match traverse f rest with
          | Raise e => Raise e
          | Ok bs => Ok (b :: bs)
          end
      end
  end.

Definition to_datetime_cell (c : pd.cell) : outcome pd.cell :=
  match c with
  | pd.Obj (PStr s) =>
      if parses_as_datetime s then Ok (pd.Timestamp (PStr s)) else Raise ValueError
  | pd.Obj (PInt n) => Ok (pd.Timestamp (PInt n))
  | pd.Obj (PFloat x) => Ok (pd.Timestamp (PFloat x))
  | pd.Obj PNone | pd.NaN | pd.NaT => Ok pd.NaT
  | pd.Timestamp v => Ok (pd.Timestamp v)
  | pd.Obj (PBool _) | pd.Obj (PList _) | pd.Obj (PDict _) => Raise TypeError
  | pd.Str _ => Raise ValueError
  end.

(** [pd.to_datetime(series)] *)
Definition to_datetime (series : list pd.cell) : outcome (list pd.cell) :=
  traverse to_datetime_cell series.

(** [series.apply(f)] *)
Definition apply (series : list pd.cell) (f : pd.cell -> outcome pd.cell) : outcome (list pd.cell) :=
  traverse f series.

Fixpoint drop_column (name : string) (cols : list (string * list pd.cell)) : list (string * list pd.cell) :=
  match cols with
  | [] => []
  | (k, cells) :: rest =>
      if String.eqb k name then rest else (k, cells) :: drop_column name rest
  end.

(** [df.set_index(name)]: a new frame, [df] is left as it is.  For a
    label that is not a column pandas raises [KeyError] with a sentence,
    not with the label. *)
Definition set_index (df : pd.DataFrame) (name : string) : outcome pd.DataFrame :=
  match column name (pd.columns df) with
  | Some cells => Ok (pd.mkFrame (Some (name, cells)) (drop_column name (pd.columns df)))
  | None => Raise (KeyError ("None of ['" ++ name ++ "'] are in the columns")%string)
  end.

Fixpoint zip_cons (cells : list pd.cell) (rows : list (list pd.cell)) : list (list pd.cell) :=
  match cells, rows with
  | c :: cells', r :: rows' => (c :: r) :: zip_cons cells' rows'
  | _, _ => []
  end.

Definition height (df : pd.DataFrame) : nat :=
  match pd.columns df with
  | [] => O
  | (_, cells) :: _ => List.length cells
  end.

Definition rows (df : pd.DataFrame) : list (list pd.cell) :=
  fold_right zip_cons (repeat [] (height df)) (map snd (pd.columns df)).

(** [df.to_csv(index=False)]: the header line, then one line per row. *)
Definition to_csv (df : pd.DataFrame) : pd.csv :=
  map (fun c => pd.Obj (PStr (fst c))) (pd.columns df) :: rows df.

(** [text.encode(codec)] *)
Definition encode (doc : pd.csv) (codec : string) : pd.encoded :=
  pd.mkEncoded codec doc.

(** [lambda x: f"UGX {x:,.2f}"] on a cell of a frame. *)
Definition format_currency (x : pd.cell) : outcome pd.cell :=
  match x with
  | pd.Obj v =>
      match fstring [s_ "UGX "; field v ",.2f"] with
      | Ok t => Ok (pd.Str t)
      | Raise e => Raise e
      end
  | pd.NaN => Ok (pd.Str [Lit "UGX "; Rendered (PFloat nan) ",.2f"])
  | pd.Timestamp _ => Ok (pd.Str [Lit "UGX ,.2f"])
  | pd.NaT | pd.Str _ => Raise ValueError
  end.

Definition currency_cols : list string :=
  ["Beginning_Balance"; "Monthly_Payment"; "Interest_Paid"; "Principal_Paid";
   "Ending_Balance"].

(** [for col in currency_cols: if col in df.columns: df[col] = df[col].apply(...)] *)
Fixpoint format_columns (cols : list string) (df : pd.DataFrame) : outcome pd.DataFrame :=
  match cols with
  | [] => Ok df
  | col :: rest =>
      if mem col (map fst (pd.columns df)) then
        match getitem df col with
        | Raise e => Raise e
        | Ok series =>
            match apply series format_currency with
            | Raise e => Raise e
            | Ok formatted => format_columns rest (setitem df col formatted)
            end
        end
      else format_columns rest df
  end.

(** *** The two flows, from the press of their button *)

Definition advance_flow (employee_id : string) (gross_salary : float)
    (pay_frequency : string) (requested_advance_amount : float) : M unit :=
  if negb (truthy (PStr employee_id)) then
    st.error (plain "Please enter your Employee ID.")
  else
    st.spinner "Processing..." ;;
    let payload :=
      PDict [("gross_salary", PFloat gross_salary);
             ("pay_frequency", PStr pay_frequency);
             ("employee_id", PStr employee_id);
             ("salary_advance",
              PDict [("requested_advance_amount", PFloat requested_advance_amount)])] in
    answer <- make_request "calculate_advance" payload ;;
    result <- display_result (fst answer) (snd answer) ;;
    if truthy result then
      eligibility_details <- lift (get result "eligibility_details" PNone) ;;
      display_eligibility_details eligibility_details ;;
      st.markdown "---" ;;
      st.subheader "🎯 Final Result:" ;;
      advance_eligible <- lift (get result "advance_eligible" PNone) ;;
      if truthy advance_eligible then
        advance_message <- lift (get result "advance_message" PNone) ;;
        status <- lift (fstring [s_ "**Status:** "; field advance_message ""]) ;;
        st.success status ;;
        approved <- lift (get result "approved_advance_amount" (PInt 0)) ;;
        amount <- lift (fstring [s_ "**Approved Amount:** UGX "; field approved ",.2f"]) ;;
        st.write amount ;;
        st.info (plain "🎉 Your salary advance has been processed and recorded!") ;;
        st.subheader "📋 Next Steps:" ;;
        st.write (plain "1. Your advance will be disbursed within 24 hours") ;;
        st.write (plain "2. The amount will be deducted from your next salary") ;;
        st.write (plain "3. Check the 'All Recorded Loans' section below to view details")
      else
        advance_message <- lift (get result "advance_message" PNone) ;;
        status <- lift (fstring [s_ "**Status:** "; field advance_message ""]) ;;
        st.warning status
    else ret tt.

(** [interest_rate = st.slider(...) / 100] *)
Definition interest_rate (slider : float) : float := (slider / 100)%float.

Definition loan_payload (employee_id : string) (loan_amount interest_rate : float)
    (loan_term_months : Z) : pyval :=
  PDict [("employee_id", PStr employee_id);
         ("loan_amount", PFloat loan_amount);
         ("annual_interest_rate", PFloat interest_rate);
         ("loan_term_months", PInt loan_term_months)].

(** The schedule block of the loan flow:
    [if schedule: ... else: st.info(...)]. *)
Definition amortization_schedule (schedule : pyval) (employee_id : string)
    (loan_term_months : Z) : M unit :=
  if truthy schedule then
    st.write (plain "### 📊 Amortization Schedule") ;;
    df <- lift (DataFrame schedule) ;;
    dates <- lift (getitem df "Payment_Date") ;;
    parsed <- lift (to_datetime dates) ;;
    let df := setitem df "Payment_Date" parsed in
    df <- lift (format_columns currency_cols df) ;;
    indexed <- lift (set_index df "Payment_Number") ;;
    st.dataframe indexed true ;;
    raw <- lift (DataFrame schedule) ;;
    let csv := encode (to_csv raw) "utf-8" in
    file_name <- lift (fstring [s_ "amortization_schedule_"; field (PStr employee_id) "";
                                s_ "_"; field (PInt loan_term_months) "";
                                s_ "months.csv"]) ;;
    st.download_button "📥 Download Schedule as CSV" csv file_name "text/csv"
  else
    st.info (plain "No amortization schedule available.").

Definition loan_flow (employee_id : string) (loan_amount slider : float)
    (loan_term_months : Z) : M unit :=
  let interest_rate := interest_rate slider in
  if negb (truthy (PStr employee_id)) then
    st.error (plain "Please enter your Employee ID.")
  else
    st.spinner "Calculating..." ;;
    let payload := loan_payload employee_id loan_amount interest_rate loan_term_months in
    answer <- make_request "calculate_loan" payload ;;
    result <- display_result (fst answer) (snd answer) ;;
    loan_requested <-
      (if truthy result then lift (get result "loan_requested" PNone) else ret result) ;;
    if truthy loan_requested then
      st.subheader "Personal Loan Result:" ;;
      st.success (plain "🎉 Loan calculation successful!") ;;
      st.columns [1; 1; 1] ;;
      st.within (Column 1)
        (value <- lift (fstring [s_ "UGX "; field (PFloat loan_amount) ""]) ;;
         st.metric "Loan Amount" value None) ;;
      st.within (Column 2)
        (value <- lift (fstring [field (PFloat (interest_rate * 100)%float) ".1f"; s_ "%"]) ;;
         st.metric "Interest Rate" value None) ;;
      st.within (Column 3)
        (value <- lift (fstring [field (PInt loan_term_months) ""; s_ " months"]) ;;
         st.metric "Loan Term" value None) ;;
      total <- lift (get result "loan_total_repayable_amount" (PInt 0)) ;;
      repayable <- lift (fstring [s_ "**Total Repayable:** UGX "; field total ",.2f"]) ;;
      st.write repayable ;;
      schedule <- lift (get result "loan_amortization_schedule" PNone) ;;
      amortization_schedule schedule employee_id loan_term_months
    else ret tt.

End App.

(** ** The list of all recorded loans

    The block under [st.checkbox("Show All Recorded Loans")]: a GET, the
    table, and the two [except] clauses around both. *)

Section Ledger.

(** What [requests.get] of a URL, [raise_for_status] and [json] come to. *)
Variable backend_get : string -> requests.attempt.
(** [pd.to_datetime] on a column.  pandas settles the date format of a
    column from its first value and reads the other values in that
    format, so the conversion is a function of the column, not of its
    cells one by one. *)
Variable pd_to_datetime : list pd.cell -> outcome (list pd.cell).
Variable DataFrame_of_other : pyval -> outcome pd.DataFrame.
(** [strftime] of a date, given by the value it was parsed from. *)
Variable strftime : pyval -> string -> string.
(** [str(e)] of an exception raised while the table is built. *)
Variable str_of_exn : exn -> string.

Definition get_request (url : string) : M requests.attempt :=
  fun w => (Ok (backend_get url),
            {| container := container w;
               screen := screen w;
               wire := wire w ++ [mkRequest "GET" url PNone] |}).

(** [try: body  except Exception as e: handler(e)] *)
Definition try_except {A} (body : M A) (handler : exn -> M A) : M A :=
  fun w => match body w with
           | (Ok a, w') => (Ok a, w')
           | (Raise e, w') => handler e w'
           end.

Definition date_cols : list string :=
  ["disbursement_date"; "expected_repayment_date"; "created_at"].

Definition strftime_cell (format : string) (c : pd.cell) : pd.cell :=
  match c with
  | pd.Timestamp v => pd.Str [Lit (strftime v format)]
  | _ => pd.NaN
  end.

(** [series.dt]: only a column of dates has the accessor. *)
Definition datetimelike (c : pd.cell) : bool :=
  match c with
  | pd.Timestamp _ | pd.NaT => true
  | _ => false
  end.

(** [series.dt.strftime(format)] *)
Definition dt_strftime (series : list pd.cell) (format : string) : outcome (list pd.cell) :=
  if forallb datetimelike series then Ok (map (strftime_cell format) series)
  else Raise AttributeError.

(** [pd.to_datetime(series).dt.strftime("%Y-%m-%d")] *)
Definition reprint (series : list pd.cell) : outcome (list pd.cell) :=
  match pd_to_datetime series with
  | Raise e => Raise e
  | Ok parsed => dt_strftime parsed "%Y-%m-%d"
  end.

(** [for col in date_cols: if col in df.columns:
       df[col] = pd.to_datetime(df[col]).dt.strftime("%Y-%m-%d")] *)
Fixpoint format_dates (cols : list string) (df : pd.DataFrame) : outcome pd.DataFrame :=
  match cols with
  | [] => Ok df
  | col :: rest =>
      if mem col (map fst (pd.columns df)) then
        match getitem df col with
        | Raise e => Raise e
        | Ok series =>
            match reprint series with
            | Raise e => Raise e
            | Ok printed => format_dates rest (setitem df col printed)
            end
        end
      else format_dates rest df
  end.

(** [if "amount" in df.columns: df["amount"] = df["amount"].apply(...)] *)
Definition format_amount (df : pd.DataFrame) : outcome pd.DataFrame :=
  if mem "amount" (map fst (pd.columns df)) then
    match getitem df "amount" with
    | Raise e => Raise e
    | Ok series =>
        match apply series format_currency with
        | Raise e => Raise e
        | Ok formatted => Ok (setitem df "amount" formatted)
        end
    end
  else Ok df.

Definition show_all_loans (checked : bool) : M unit :=
  if checked then
    response <- get_request (FASTAPI_BACKEND_URL ++ "/loans")%string ;;
    match response with
    | requests.Failed (requests.ConnectionError _) =>
        st.error (plain "Could not connect to backend to fetch loans.")
    | requests.Failed (requests.RequestException e)
    | requests.Failed (requests.Exception e) =>
        st.error [Lit ("Error fetching loans: " ++ e)%string]
    | requests.Responded loans =>
        try_except
          (if truthy loans then
             df <- lift (DataFrame DataFrame_of_other loans) ;;
             df <- lift (format_dates date_cols df) ;;
             df <- lift (format_amount df) ;;
             st.dataframe df true
           else
             st.info (plain "No loans recorded yet."))
          (fun e => st.error [Lit ("Error fetching loans: " ++ str_of_exn e)%string])
    end
  else ret tt.

End Ledger.

(** ** The backend's records, as the script receives them *)

Record EligibilityDetails : Type := mkDetails
  { salary_check : bool;
    pay_frequency_check : bool;
    amount_check : bool;
    advance_limit_check : bool;
    max_eligible_advance : option float;
    failed_criteria : list string }.

Definition nullable (x : option float) : pyval :=
  match x with
  | Some v => PFloat v
  | None => PNone
  end.

Definition details_json (d : EligibilityDetails) : pyval :=
  PDict [("salary_check", PBool (salary_check d));
         ("pay_frequency_check", PBool (pay_frequency_check d));
         ("amount_check", PBool (amount_check d));
         ("advance_limit_check", PBool (advance_limit_check d));
         ("max_eligible_advance", nullable (max_eligible_advance d));
         ("failed_criteria", PList (map PStr (failed_criteria d)))].

Record AmortizationRow : Type := mkRow
  { Payment_Number : Z;
    Payment_Date : string;
    Beginning_Balance : float;
    Monthly_Payment : float;
    Interest_Paid : float;
    Principal_Paid : float;
    Ending_Balance : float }.

Definition row_entries (r : AmortizationRow) : list (string * pyval) :=
  [("Payment_Number", PInt (Payment_Number r));
   ("Payment_Date", PStr (Payment_Date r));
   ("Beginning_Balance", PFloat (Beginning_Balance r));
   ("Monthly_Payment", PFloat (Monthly_Payment r));
   ("Interest_Paid", PFloat (Interest_Paid r));
   ("Principal_Paid", PFloat (Principal_Paid r));
   ("Ending_Balance", PFloat (Ending_Balance r))].

Definition row_json (r : AmortizationRow) : pyval := PDict (row_entries r).

(** The answer of [POST /calculate_loan]; an absent field is [None]. *)
Record LoanResponse : Type := mkLoanResponse
  { error : option bool;
    error_message : option string;
    loan_requested : option bool;
    loan_total_repayable_amount : option float;
    loan_amortization_schedule : option (list AmortizationRow) }.

Definition present (key : string) (v : option pyval) : list (string * pyval) :=
  match v with
  | Some x => [(key, x)]
  | None => []
  end.

Definition loan_response_json (r : LoanResponse) : pyval :=
  PDict (present "error" (option_map PBool (error r))
         ++ present "error_message" (option_map PStr (error_message r))
         ++ present "loan_requested" (option_map PBool (loan_requested r))
         ++ present "loan_total_repayable_amount"
              (option_map PFloat (loan_total_repayable_amount r))
         ++ present "loan_amortization_schedule"
              (option_map (fun rs => PList (map row_json rs))
                 (loan_amortization_schedule r))).

(** ** Reading a page *)

(** The world a run ends in when it drew [drawn] and sent nothing. *)
Definition shows (drawn : list (place * widget)) : world :=
  {| container := Main; screen := drawn; wire := [] |}.

Definition same_place (p q : place) : bool :=
  match p, q with
  | Main, Main => true
  | Column i, Column j => Nat.eqb i j
  | _, _ => false
  end.

(** The widgets drawn in one container, in order. *)
Definition drawn_in (p : place) (scr : list (place * widget)) : list widget :=
  map snd (filter (fun x => same_place (fst x) p) scr).

Definition error_bodies (ws : list widget) : list text :=
  flat_map (fun x => match x with WError body => [body] | _ => [] end) ws.

Definition info_bodies (ws : list widget) : list text :=
  flat_map (fun x => match x with WInfo body => [body] | _ => [] end) ws.

(** The [except] clause of [make_request] that catches an exception. *)
Definition clause (e : requests.raised) : nat :=
  match e with
  | requests.ConnectionError _ => 1%nat
  | requests.RequestException _ => 2%nat
  | requests.Exception _ => 3%nat
  end.

(** A run that sends nothing. *)
Definition quiet {A} (c : M A) : Prop :=
  forall w, wire (snd (c w)) = wire w.

(** A run that only adds to the page. *)
Definition keeps {A} (c : M A) : Prop :=
  forall w, exists more, screen (snd (c w)) = screen w ++ more.

(** The summary the loan flow draws above the schedule. *)
Definition loan_summary (loan_amount slider : float) (loan_term_months : Z)
    (total : pyval) : list (place * widget) :=
  [(Main, WSpinner "Calculating...");
   (Main, WSubheader "Personal Loan Result:");
   (Main, WSuccess (plain "🎉 Loan calculation successful!"));
   (Main, WColumns [1; 1; 1]);
   (Column 1, WMetric "Loan Amount" [Lit "UGX "; Rendered (PFloat loan_amount) ""] None);
   (Column 2, WMetric "Interest Rate"
                [Rendered (PFloat (interest_rate slider * 100)%float) ".1f"; Lit "%"] None);
   (Column 3, WMetric "Loan Term" [Lit (str_int loan_term_months ++ " months")%string] None);
   (Main, WText [Lit "**Total Repayable:** UGX "; Rendered total ",.2f"])].

(** What [result.get("loan_amortization_schedule")] gives for a record. *)
Definition schedule_json (rs : option (list AmortizationRow)) : pyval :=
  match rs with
  | Some rows => PList (map row_json rows)
  | None => PNone
  end.

(** What [result.get("loan_total_repayable_amount", 0)] gives for a record. *)
Definition total_json (total : option float) : pyval :=
  match total with
  | Some t => PFloat t
  | None => PInt 0
  end.

(** The frame [pd.DataFrame] builds from a schedule of records. *)
Definition raw_frame (rows : list AmortizationRow) : pd.DataFrame :=
  pd.mkFrame None
    [("Payment_Number", map (fun r => pd.Obj (PInt (Payment_Number r))) rows);
     ("Payment_Date", map (fun r => pd.Obj (PStr (Payment_Date r))) rows);
     ("Beginning_Balance", map (fun r => pd.Obj (PFloat (Beginning_Balance r))) rows);
     ("Monthly_Payment", map (fun r => pd.Obj (PFloat (Monthly_Payment r))) rows);
     ("Interest_Paid", map (fun r => pd.Obj (PFloat (Interest_Paid r))) rows);
     ("Principal_Paid", map (fun r => pd.Obj (PFloat (Principal_Paid r))) rows);
     ("Ending_Balance", map (fun r => pd.Obj (PFloat (Ending_Balance r))) rows)].

(** A cell of the table on the page: the amount as a currency string. *)
Definition money (x : float) : pd.cell :=
  pd.Str [Lit "UGX "; Rendered (PFloat x) ",.2f"].

(** The table the loan flow puts on the page. *)
Definition shown_table (rows : list AmortizationRow) : pd.DataFrame :=
  pd.mkFrame
    (Some ("Payment_Number", map (fun r => pd.Obj (PInt (Payment_Number r))) rows))
    [("Payment_Date", map (fun r => pd.Timestamp (PStr (Payment_Date r))) rows);
     ("Beginning_Balance", map (fun r => money (Beginning_Balance r)) rows);
     ("Monthly_Payment", map (fun r => money (Monthly_Payment r)) rows);
     ("Interest_Paid", map (fun r => money (Interest_Paid r)) rows);
     ("Principal_Paid", map (fun r => money (Principal_Paid r)) rows);
     ("Ending_Balance", map (fun r => money (Ending_Balance r)) rows)].

Definition schedule_header : list pd.cell :=
  map (fun name => pd.Obj (PStr name))
    ["Payment_Number"; "Payment_Date"; "Beginning_Balance"; "Monthly_Payment";
     "Interest_Paid"; "Principal_Paid"; "Ending_Balance"].

(** One line of the download: the values as the backend sent them. *)
Definition raw_line (r : AmortizationRow) : list pd.cell :=
  [pd.Obj (PInt (Payment_Number r)); pd.Obj (PStr (Payment_Date r));
   pd.Obj (PFloat (Beginning_Balance r)); pd.Obj (PFloat (Monthly_Payment r));
   pd.Obj (PFloat (Interest_Paid r)); pd.Obj (PFloat (Principal_Paid r));
   pd.Obj (PFloat (Ending_Balance r))].

Definition raw_csv (rows : list AmortizationRow) : pd.csv :=
  schedule_header :: map raw_line rows.

(** The binary64 values of the constants of the interest-rate slider:
    100, 25 and 0.25 as mantissa and exponent. *)
Definition sf_100 : spec_float := S754_finite false 7036874417766400 (-46).
Definition sf_25 : spec_float := S754_finite false 7036874417766400 (-48).
Definition sf_quarter : spec_float := S754_finite false 4503599627370496 (-54).

(** The message [make_request] returns for an exception. *)
Definition failure_message (e : requests.raised) : string :=
  match e with
  | requests.ConnectionError _ =>
      ("Could not connect to backend at " ++ FASTAPI_BACKEND_URL)%string
  | requests.RequestException detail => ("Request error: " ++ detail)%string
  | requests.Exception detail => ("Unexpected error: " ++ detail)%string
  end.

(** The payload of the advance flow. *)
Definition advance_payload (employee_id : string) (gross_salary : float)
    (pay_frequency : string) (requested_advance_amount : float) : pyval :=
  PDict [("gross_salary", PFloat gross_salary);
         ("pay_frequency", PStr pay_frequency);
         ("employee_id", PStr employee_id);
         ("salary_advance",
          PDict [("requested_advance_amount", PFloat requested_advance_amount)])].

(** The answer of [POST /calculate_advance]; an absent field is [None]. *)
Record AdvanceResponse : Type := mkAdvanceResponse
  { advance_error : option bool;
    advance_error_message : option string;
    eligibility_details : option EligibilityDetails;
    advance_eligible : option bool;
    advance_message : option string;
    approved_advance_amount : option float }.

Definition advance_response_json (a : AdvanceResponse) : pyval :=
  PDict (present "error" (option_map PBool (advance_error a))
         ++ present "error_message" (option_map PStr (advance_error_message a))
         ++ present "eligibility_details" (option_map details_json (eligibility_details a))
         ++ present "advance_eligible" (option_map PBool (advance_eligible a))
         ++ present "advance_message" (option_map PStr (advance_message a))
         ++ present "approved_advance_amount"
              (option_map PFloat (approved_advance_amount a))).

(** The "Final Result" block of the advance flow. *)
Definition advance_result (a : AdvanceResponse) : list (place * widget) :=
  let status :=
    [Lit ("**Status:** " ++ match advance_message a with
                            | Some m => m
                            | None => "None"
                            end)%string] in
  [(Main, WMarkdown "---"); (Main, WSubheader "🎯 Final Result:")]
  ++ match advance_eligible a with
     | Some true =>
         [(Main, WSuccess status);
          (Main, WText [Lit "**Approved Amount:** UGX ";
                        Rendered (match approved_advance_amount a with
                                  | Some x => PFloat x
                                  | None => PInt 0
                                  end) ",.2f"]);
          (Main, WInfo (plain "🎉 Your salary advance has been processed and recorded!"));
          (Main, WSubheader "📋 Next Steps:");
          (Main, WText (plain "1. Your advance will be disbursed within 24 hours"));
          (Main, WText (plain "2. The amount will be deducted from your next salary"));
          (Main, WText (plain "3. Check the 'All Recorded Loans' section below to view details"))]
     | _ => [(Main, WWarning status)]
     end.

(** A record of [GET /loans], with the fields the script formats. *)
Record LoanRecord : Type := mkLoanRecord
  { amount : float;
    disbursement_date : string;
    expected_repayment_date : string;
    created_at : string }.

Definition loan_record_entries (r : LoanRecord) : list (string * pyval) :=
  [("amount", PFloat (amount r));
   ("disbursement_date", PStr (disbursement_date r));
   ("expected_repayment_date", PStr (expected_repayment_date r));
   ("created_at", PStr (created_at r))].

Definition loan_record_json (r : LoanRecord) : pyval := PDict (loan_record_entries r).

(** The same record from a backend that writes the amount as a JSON
    string, as encoders of decimals do; [print] is its printer. *)
Definition loan_record_text (print : float -> string) (r : LoanRecord) : pyval :=
  PDict [("amount", PStr (print (amount r)));
         ("disbursement_date", PStr (disbursement_date r));
         ("expected_repayment_date", PStr (expected_repayment_date r));
         ("created_at", PStr (created_at r))].

(** The three date columns of the frame of such records, in the order
    the script converts them. *)
Definition date_columns (rs : list LoanRecord) : list (list pd.cell) :=
  [map (fun r => pd.Obj (PStr (disbursement_date r))) rs;
   map (fun r => pd.Obj (PStr (expected_repayment_date r))) rs;
   map (fun r => pd.Obj (PStr (created_at r))) rs].

(** The table of the ledger for such records: amounts as currency
    strings, and the three columns of dates, as [pd.to_datetime] parsed
    them, reprinted by [strftime]. *)
Definition ledger_table (strftime : pyval -> string -> string)
    (rs : list LoanRecord) (parsed : list (list pd.cell)) : pd.DataFrame :=
  pd.mkFrame None
    (("amount", map (fun r => money (amount r)) rs)
     :: combine date_cols (map (map (strftime_cell strftime "%Y-%m-%d")) parsed)).

(** A date parser and printer for dates written as year-month-day: the
    parser knows the dates of [known] and rejects every other value, and
    the printer writes a date as it was read. *)
Definition iso_to_datetime (known : list string) (series : list pd.cell)
    : outcome (list pd.cell) :=
  traverse (fun c => match c with
                     | pd.Obj (PStr s) =>
                         if mem s known then Ok (pd.Timestamp (PStr s))
                         else Raise ValueError
                     | _ => Raise TypeError
                     end) series.

Definition iso_strftime (v : pyval) (format : string) : string :=
  match v with
  | PStr s => s
  | _ => ""
  end.

(** The three remediation hints of the eligibility panel. *)
Definition hint_salary : text :=
  plain "• Increase your gross salary to at least UGX 200,000".
Definition hint_frequency : text :=
  plain "• Ensure your pay frequency is one of: Weekly, Bi-weekly, Semi-monthly, or Monthly".
Definition hint_amount (x : float) : text :=
  [Lit "• Reduce your requested advance amount to UGX ";
   Rendered (PFloat x) ",.2f"; Lit " or less"].

(** The page [display_eligibility_details] draws for a record. *)
Definition eligibility_panel (d : EligibilityDetails) : list (place * widget) :=
  [(Main, WSubheader "📋 Eligibility Criteria Check");
   (Main, WColumns [2; 2]);
   (Column 1, if salary_check d
              then WSuccess (plain "✅ Minimum salary requirement met")
              else WError (plain "❌ Minimum salary requirement not met"));
   (Column 1, if pay_frequency_check d
              then WSuccess (plain "✅ Valid pay frequency")
              else WError (plain "❌ Invalid pay frequency"));
   (Column 1, if amount_check d
              then WSuccess (plain "✅ Valid advance amount")
              else WError (plain "❌ Invalid advance amount"));
   (Column 1, if advance_limit_check d
              then WSuccess (plain "✅ Within advance limit")
              else WError (plain "❌ Exceeds maximum advance limit"))]
  ++ match max_eligible_advance d with
     | Some x =>
         [(Column 2,
           WMetric "Max Eligible Advance" [Lit "UGX "; Rendered (PFloat x) ",.2f"]
             (Some "Maximum advance amount you can request based on your salary"))]
     | None => []
     end
  ++ match failed_criteria d with
     | [] => []
     | _ :: _ =>
         [(Main, WSubheader "❌ Issues to Address:")]
         ++ map (fun c => (Main, WError [Lit ("• " ++ c)%string])) (failed_criteria d)
         ++ [(Main, WSubheader "💡 How to Become Eligible:")]
         ++ (if salary_check d then [] else [(Main, WInfo hint_salary)])
         ++ (if advance_limit_check d then []
             else match max_eligible_advance d with
                  | Some x =>
                      if PrimFloat.eqb x 0%float then []
                      else [(Main, WInfo (hint_amount x))]
                  | None => []
                  end)
         ++ (if pay_frequency_check d then [] else [(Main, WInfo hint_frequency)])
     end.

(** * Proofs *)

(** ** The monad and the wire *)

Lemma quiet_ret A (a : A) : quiet (ret a).
Proof. intros w. reflexivity. Qed.

Lemma quiet_lift A (o : outcome A) : quiet (lift o).
Proof. intros w. reflexivity. Qed.

Lemma quiet_emit x : quiet (st.emit x).
Proof. intros w. reflexivity. Qed.

Lemma quiet_bind A B (c : M A) (k : A -> M B) :
  quiet c -> (forall a, quiet (k a)) -> quiet (bind c k).
Proof.
  intros Hc Hk w. unfold bind. specialize (Hc w).
  destruct (c w) as [[a|e] w']; simpl in *.
  - rewrite Hk. exact Hc.
  - exact Hc.
Qed.

Lemma quiet_within A p (body : M A) : quiet body -> quiet (st.within p body).
Proof.
  intros Hb w. unfold st.within.
  specialize (Hb {| container := p; screen := screen w; wire := wire w |}).
  destruct (body _) as [o w']. simpl in *. exact Hb.
Qed.

Lemma quiet_for_each items body :
  (forall x, quiet (body x)) -> quiet (for_each items body).
Proof.
  intros Hb. induction items as [|x rest IH]; simpl.
  - apply quiet_ret.
  - apply quiet_bind; [apply Hb | intros _; exact IH].
Qed.

Lemma quiet_for_in v body :
  (forall x, quiet (body x)) -> quiet (for_in v body).
Proof.
  intros Hb. apply quiet_bind; [apply quiet_lift | intros items].
  apply quiet_for_each, Hb.
Qed.

Create HintDb quiet.
#[export] Hint Resolve quiet_ret quiet_lift quiet_emit quiet_within
  quiet_for_each quiet_for_in : quiet.

Ltac quiet_step :=
  match goal with
  | |- quiet (bind _ _) => apply quiet_bind; [| intros ?]
  | |- quiet (if ?b then _ else _) => destruct b
  | |- quiet (match ?x with _ => _ end) => destruct x
  | |- quiet (st.within _ _) => apply quiet_within
  | |- quiet (for_in _ _) => apply quiet_for_in; intros ?
  | |- quiet _ => solve [auto with quiet]
  | |- quiet _ => exact (quiet_emit _)
  | |- quiet _ => progress cbv zeta
  end.

Ltac quiet_solve := repeat quiet_step.

Lemma quiet_display_result result error_msg : quiet (display_result result error_msg).
Proof. unfold display_result. quiet_solve. Qed.

Lemma quiet_display_eligibility_details v : quiet (display_eligibility_details v).
Proof. unfold display_eligibility_details. quiet_solve. Qed.

Lemma quiet_amortization_schedule parses other schedule employee_id term :
  quiet (amortization_schedule parses other schedule employee_id term).
Proof. unfold amortization_schedule. quiet_solve. Qed.

#[export] Hint Resolve quiet_display_result quiet_display_eligibility_details
  quiet_amortization_schedule : quiet.

(** What is sent by [c ;; k] is what [c] sent when [k] is quiet. *)
Lemma wire_bind_quiet A B (c : M A) (k : A -> M B) w :
  (forall a, quiet (k a)) -> wire (snd (bind c k w)) = wire (snd (c w)).
Proof.
  intros Hk. unfold bind. destruct (c w) as [[a|e] w']; simpl.
  - apply Hk.
  - reflexivity.
Qed.

(** ** make_request *)

(** C2, as the code has it: [make_request] sends one POST and draws
    nothing; it returns the decoded body with [None], or [None] with a
    non-empty message, so the two are never both set; they are both
    [None] exactly when the body decodes to JSON [null].  Exceptions
    caught by different [except] clauses give different messages. *)
Theorem make_request_pair (backend : string -> pyval -> requests.attempt)
    (endpoint : string) (payload : pyval) :
  let target := (FASTAPI_BACKEND_URL ++ "/" ++ endpoint)%string in
  let call := make_request backend endpoint payload in
  sent call = [mkRequest "POST" target payload] /\
  page call = [] /\
  match backend target payload with
  | requests.Responded body => result_of call = Ok (body, PNone)
  | requests.Failed e =>
      exists msg, msg <> "" /\ result_of call = Ok (PNone, PStr msg)
  end /\
  (result_of call = Ok (PNone, PNone) <->
   backend target payload = requests.Responded PNone) /\
  (forall e1 e2, clause e1 <> clause e2 ->
     result_of (make_request (fun _ _ => requests.Failed e1) endpoint payload) <>
     result_of (make_request (fun _ _ => requests.Failed e2) endpoint payload)).
Proof.
  intros target call. subst call target.
  unfold sent, page, result_of, run, make_request, bind, post.
  cbv beta iota. cbn [fst snd wire screen blank].
  destruct (backend (FASTAPI_BACKEND_URL ++ "/" ++ endpoint)%string payload)
    as [body|[e|e|e]] eqn:Eb; cbn [ret fst snd wire screen];
    (split; [reflexivity | split; [reflexivity |]]).
  - split; [reflexivity |]. split.
    + split; intros H; inversion H; reflexivity.
    + intros [a|a|a] [b|b|b] Hc; simpl in *; try congruence; discriminate.
  - split; [eexists; split; [| reflexivity]; discriminate |]. split.
    + split; intros H; discriminate.
    + intros [a|a|a] [b|b|b] Hc; simpl in *; try congruence; discriminate.
  - split; [eexists; split; [| reflexivity]; discriminate |]. split.
    + split; intros H; discriminate.
    + intros [a|a|a] [b|b|b] Hc; simpl in *; try congruence; discriminate.
  - split; [eexists; split; [| reflexivity]; discriminate |]. split.
    + split; intros H; discriminate.
    + intros [a|a|a] [b|b|b] Hc; simpl in *; try congruence; discriminate.
Qed.

(** C2, the claim as stated fails: a backend that answers with the body
    [null] makes [make_request] return [(None, None)]. *)
Lemma make_request_both_none :
  result_of (make_request (fun _ _ => requests.Responded PNone)
               "calculate_advance" (PDict [])) = Ok (PNone, PNone).
Proof. reflexivity. Qed.

(** ** display_result *)

(** C3, as the code has it: when [error_msg] is set it is drawn and
    nothing is returned; otherwise, for a [result] that is an object
    (its [get] succeeds), a truthy [error] draws "Error: " followed by
    [error_message], or by "Unknown error" when that key is absent, and
    returns nothing, and a falsy one returns [result] itself and draws
    nothing.  Nothing is sent either way.  When [error_msg] is falsy and
    [result] is not an object, [None] included, the function draws
    nothing and raises [AttributeError]. *)
Theorem display_result_gate (result error_msg : pyval) :
  (truthy error_msg = true ->
     run (display_result result error_msg) =
       (Ok PNone, shows [(Main, WError [render error_msg ""])])) /\
  (forall flag message,
     truthy error_msg = false ->
     get result "error" PNone = Ok flag ->
     get result "error_message" (PStr "Unknown error") = Ok message ->
     run (display_result result error_msg) =
       if truthy flag
       then (Ok PNone, shows [(Main, WError (join_parts [s_ "Error: "; field message ""]))])
       else (Ok result, blank)) /\
  (forall entries,
     result = PDict entries -> lookup "error_message" entries = None ->
     get result "error_message" (PStr "Unknown error") = Ok (PStr "Unknown error") /\
     join_parts [s_ "Error: "; field (PStr "Unknown error") ""] =
       [Lit "Error: Unknown error"]) /\
  (truthy error_msg = false ->
   (forall entries, result <> PDict entries) ->
   run (display_result result error_msg) = (Raise AttributeError, blank)).
Proof.
  split; [| split; [| split]].
  - intros He. unfold run, display_result. rewrite He. reflexivity.
  - intros flag message He Hf Hm. unfold run, display_result. rewrite He.
    unfold bind, lift. rewrite Hf. destruct (truthy flag); [| reflexivity].
    rewrite Hm. reflexivity.
  - intros entries Hr Hm. subst result. simpl. rewrite Hm. split; reflexivity.
  - intros He Hno. unfold run, display_result. rewrite He.
    destruct result; try reflexivity.
    exfalso. exact (Hno _ eq_refl).
Qed.

Lemma display_result_gate_witness :
  run (display_result (PDict [("error", PBool true)]) PNone) =
    (Ok PNone, shows [(Main, WError [Lit "Error: Unknown error"])]).
Proof.
  exact (proj1 (proj2 (display_result_gate (PDict [("error", PBool true)]) PNone))
           (PBool true) (PStr "Unknown error") eq_refl eq_refl eq_refl).
Defined.

(** C3, the claim as stated fails: with neither a result nor an error
    the function neither draws nor returns, it raises. *)
Lemma display_result_none_none :
  run (display_result PNone PNone) = (Raise AttributeError, blank).
Proof. reflexivity. Qed.

(** C10, as the code has it: [display_result] raises on [None] with a
    falsy error; after [make_request] it returns when the request failed
    or the body is an object, and raises [AttributeError] when the body
    decodes to anything else, [null] included. *)
Theorem display_after_request (backend : string -> pyval -> requests.attempt)
    (endpoint : string) (payload : pyval) :
  (forall error_msg, truthy error_msg = false ->
     result_of (display_result PNone error_msg) = Raise AttributeError) /\
  let composed :=
    answer <- make_request backend endpoint payload ;;
    display_result (fst answer) (snd answer) in
  match backend (FASTAPI_BACKEND_URL ++ "/" ++ endpoint)%string payload with
  | requests.Failed _ => result_of composed = Ok PNone
  | requests.Responded (PDict entries) => exists v, result_of composed = Ok v
  | requests.Responded _ => result_of composed = Raise AttributeError
  end.
Proof.
  split.
  - intros error_msg He. unfold result_of, run, display_result. rewrite He. reflexivity.
  - intros composed. subst composed.
    unfold result_of, run, make_request, bind, post. simpl.
    destruct (backend _ payload) as [body|[e|e|e]]; simpl; try reflexivity.
    destruct body; try reflexivity.
    unfold display_result. simpl. unfold bind, lift. simpl.
    destruct (truthy _); simpl; eexists; reflexivity.
Qed.

(** C10, the claim as stated fails: the body [null] takes the advance
    flow through [make_request] into [None.get]. *)
Lemma display_after_request_null :
  result_of (answer <- make_request (fun _ _ => requests.Responded PNone)
                         "calculate_advance" (PDict []) ;;
             display_result (fst answer) (snd answer)) = Raise AttributeError /\
  result_of (advance_flow (fun _ _ => requests.Responded PNone)
               "EMP001" 3000000%float "Monthly" 500000%float) = Raise AttributeError.
Proof. split; reflexivity. Qed.

(** ** The employee ID check of the two flows *)

Lemma nonempty_truthy (s : string) : s <> "" -> truthy (PStr s) = true.
Proof.
  intros Hs. simpl. destruct (String.eqb s "") eqn:E; [| reflexivity].
  apply String.eqb_eq in E. contradiction.
Qed.

Lemma wire_make_request backend endpoint payload w :
  wire (snd (make_request backend endpoint payload w)) =
  wire w ++ [mkRequest "POST" (FASTAPI_BACKEND_URL ++ "/" ++ endpoint)%string payload].
Proof.
  unfold make_request, bind, post. cbv beta iota.
  destruct (backend _ payload) as [body|[e|e|e]]; reflexivity.
Qed.

Lemma sent_advance_flow backend employee_id gross_salary pay_frequency requested :
  employee_id <> "" ->
  sent (advance_flow backend employee_id gross_salary pay_frequency requested) =
    [mkRequest "POST" "http://backend:8000/calculate_advance"
       (PDict [("gross_salary", PFloat gross_salary);
               ("pay_frequency", PStr pay_frequency);
               ("employee_id", PStr employee_id);
               ("salary_advance",
                PDict [("requested_advance_amount", PFloat requested)])])].
Proof.
  intros Hid. unfold sent, run, advance_flow. rewrite (nonempty_truthy Hid). cbn [negb].
  unfold bind at 1. cbn [st.spinner st.emit blank container screen wire].
  rewrite wire_bind_quiet, wire_make_request; [reflexivity |].
  intros answer. quiet_solve.
Qed.

Lemma sent_loan_flow backend parses other employee_id loan_amount slider term :
  employee_id <> "" ->
  sent (loan_flow backend parses other employee_id loan_amount slider term) =
    [mkRequest "POST" "http://backend:8000/calculate_loan"
       (loan_payload employee_id loan_amount (interest_rate slider) term)].
Proof.
  intros Hid. unfold sent, run, loan_flow. rewrite (nonempty_truthy Hid). cbn [negb].
  unfold bind at 1. cbn [st.spinner st.emit blank container screen wire].
  rewrite wire_bind_quiet, wire_make_request; [reflexivity |].
  intros answer. quiet_solve.
Qed.

(** C4: with an empty employee ID each flow draws the validation error
    and nothing else, and sends nothing; with any other employee ID each
    flow sends its one POST, whatever the backend answers. *)
Theorem employee_id_required (backend : string -> pyval -> requests.attempt)
    (parses_as_datetime : string -> bool)
    (DataFrame_of_other : pyval -> outcome pd.DataFrame)
    (gross_salary : float) (pay_frequency : string)
    (requested_advance_amount loan_amount slider : float) (loan_term_months : Z) :
  run (advance_flow backend "" gross_salary pay_frequency requested_advance_amount) =
    (Ok tt, shows [(Main, WError (plain "Please enter your Employee ID."))]) /\
  run (loan_flow backend parses_as_datetime DataFrame_of_other
         "" loan_amount slider loan_term_months) =
    (Ok tt, shows [(Main, WError (plain "Please enter your Employee ID."))]) /\
  (forall employee_id, employee_id <> "" ->
     sent (advance_flow backend employee_id gross_salary pay_frequency
             requested_advance_amount) =
       [mkRequest "POST" "http://backend:8000/calculate_advance"
          (PDict [("gross_salary", PFloat gross_salary);
                  ("pay_frequency", PStr pay_frequency);
                  ("employee_id", PStr employee_id);
                  ("salary_advance",
                   PDict [("requested_advance_amount",
                           PFloat requested_advance_amount)])])] /\
     sent (loan_flow backend parses_as_datetime DataFrame_of_other
             employee_id loan_amount slider loan_term_months) =
       [mkRequest "POST" "http://backend:8000/calculate_loan"
          (loan_payload employee_id loan_amount (interest_rate slider)
             loan_term_months)]).
Proof.
  split; [reflexivity | split; [reflexivity |]].
  intros employee_id Hid. split.
  - apply sent_advance_flow. exact Hid.
  - apply sent_loan_flow. exact Hid.
Qed.

Lemma employee_id_required_witness :
  sent (advance_flow (fun _ _ => requests.Failed (requests.ConnectionError "refused"))
          "EMP001" 3000000%float "Monthly" 500000%float) =
    [mkRequest "POST" "http://backend:8000/calculate_advance"
       (PDict [("gross_salary", PFloat 3000000%float);
               ("pay_frequency", PStr "Monthly");
               ("employee_id", PStr "EMP001");
               ("salary_advance",
                PDict [("requested_advance_amount", PFloat 500000%float)])])].
Proof.
  refine (proj1 (proj2 (proj2 (employee_id_required
            (fun _ _ => requests.Failed (requests.ConnectionError "refused"))
            (fun _ => true) (fun _ => Raise ValueError)
            3000000%float "Monthly" 500000%float 0%float 0%float 12)) "EMP001" _)).
  discriminate.
Defined.

(** ** The eligibility panel *)

Lemma for_each_criteria (criteria : list string) : forall w,
  for_each (map PStr criteria)
    (fun criterion =>
       body <- lift (fstring [s_ "• "; field criterion ""]) ;;
       st.error body) w =
  (Ok tt, {| container := container w;
             screen := screen w
                       ++ map (fun c => (container w, WError [Lit ("• " ++ c)%string]))
                            criteria;
             wire := wire w |}).
Proof.
  induction criteria as [|c rest IH]; intros w.
  - simpl. rewrite app_nil_r. destruct w; reflexivity.
  - cbn [map for_each]. unfold bind at 1.
    change (bind (lift (fstring [s_ "• "; field (PStr c) ""])) (fun body => st.error body) w)
      with (Ok tt, {| container := container w;
                      screen := screen w ++ [(container w, WError [Lit ("• " ++ c)%string])];
                      wire := wire w |}).
    cbv iota beta. rewrite IH. cbn [container screen wire map].
    rewrite <- app_assoc. reflexivity.
Qed.

Lemma for_in_criteria (criteria : list string) (w : world) :
  for_in (PList (map PStr criteria))
    (fun criterion =>
       body <- lift (fstring [s_ "• "; field criterion ""]) ;;
       st.error body) w =
  (Ok tt, {| container := container w;
             screen := screen w
                       ++ map (fun c => (container w, WError [Lit ("• " ++ c)%string]))
                            criteria;
             wire := wire w |}).
Proof. unfold for_in, bind at 1, lift. cbn [iterate]. apply for_each_criteria. Qed.

Lemma page_display_eligibility_details (d : EligibilityDetails) :
  run (display_eligibility_details (details_json d)) = (Ok tt, shows (eligibility_panel d)).
Proof.
  destruct d as [sc pf am al mx fc].
  unfold run, display_eligibility_details, details_json, eligibility_panel, shows.
  cbn [truthy negb salary_check pay_frequency_check amount_check advance_limit_check
       max_eligible_advance failed_criteria].
  destruct fc as [|c rest].
  - destruct sc, pf, am, al, mx; reflexivity.
  - destruct sc, pf, am, al, mx as [x|]; try destruct (PrimFloat.eqb x 0) eqn:Ex.
    all: unfold for_in, bind, lift, st.within, get; cbn -[for_each PrimFloat.eqb].
    all: try rewrite Ex; cbn -[for_each PrimFloat.eqb].
    all: match goal with
         | |- context [for_each ?l ?b ?w] =>
             replace (for_each l b w) with
               (Ok tt, {| container := container w;
                          screen := screen w
                            ++ map (fun c => (container w, WError [Lit ("• " ++ c)%string]))
                                 (c :: rest);
                          wire := wire w |})
               by (symmetry; apply (for_each_criteria (c :: rest) w))
         end.
    all: unfold st.info, st.emit, ret; cbn -[PrimFloat.eqb];
      rewrite <- ?app_assoc; reflexivity.
Qed.

Lemma drawn_in_app p a b : drawn_in p (a ++ b) = drawn_in p a ++ drawn_in p b.
Proof. unfold drawn_in. rewrite filter_app, map_app. reflexivity. Qed.

Lemma drawn_in_main_lines (f : string -> widget) (l : list string) :
  drawn_in Main (map (fun c => (Main, f c)) l) = map f l.
Proof. induction l as [|c l IH]; [reflexivity|]. cbn. f_equal. exact IH. Qed.

Lemma drawn_in_column_lines i (f : string -> widget) (l : list string) :
  drawn_in (Column i) (map (fun c => (Main, f c)) l) = [].
Proof. induction l as [|c l IH]; [reflexivity|]. cbn. exact IH. Qed.

Lemma error_bodies_lines (f : string -> text) (l : list string) :
  error_bodies (map (fun c => WError (f c)) l) = map f l.
Proof. induction l as [|c l IH]; [reflexivity|]. cbn. f_equal. exact IH. Qed.

Lemma info_bodies_errors (f : string -> text) (l : list string) :
  info_bodies (map (fun c => WError (f c)) l) = [].
Proof. induction l as [|c l IH]; [reflexivity|]. cbn. exact IH. Qed.

Lemma error_bodies_app a b : error_bodies (a ++ b) = error_bodies a ++ error_bodies b.
Proof. apply flat_map_app. Qed.

Lemma info_bodies_app a b : info_bodies (a ++ b) = info_bodies a ++ info_bodies b.
Proof. apply flat_map_app. Qed.

(** The main container of the panel: the two subheaders around the
    criteria lines, then the hints. *)
Lemma panel_main (d : EligibilityDetails) :
  drawn_in Main (eligibility_panel d) =
  WSubheader "📋 Eligibility Criteria Check" :: WColumns [2; 2] ::
  match failed_criteria d with
  | [] => []
  | _ :: _ =>
      WSubheader "❌ Issues to Address:"
      :: map (fun c => WError [Lit ("• " ++ c)%string]) (failed_criteria d)
      ++ WSubheader "💡 How to Become Eligible:"
      :: (if salary_check d then [] else [WInfo hint_salary])
      ++ (if advance_limit_check d then []
          else match max_eligible_advance d with
               | Some x => if PrimFloat.eqb x 0%float then [] else [WInfo (hint_amount x)]
               | None => []
               end)
      ++ (if pay_frequency_check d then [] else [WInfo hint_frequency])
  end.
Proof.
  destruct d as [sc pf am al mx fc]. unfold eligibility_panel.
  cbn [salary_check pay_frequency_check amount_check advance_limit_check
       max_eligible_advance failed_criteria].
  rewrite !drawn_in_app.
  replace (drawn_in Main match mx with
                         | Some x => [(Column 2, WMetric "Max Eligible Advance"
                                        [Lit "UGX "; Rendered (PFloat x) ",.2f"]
                                        (Some "Maximum advance amount you can request based on your salary"))]
                         | None => []
                         end) with (@nil widget) by (destruct mx; reflexivity).
  destruct fc as [|c rest].
  - destruct sc, pf, am, al; reflexivity.
  - rewrite !drawn_in_app.
    rewrite (drawn_in_main_lines (fun c => WError [Lit ("• " ++ c)%string])).
    destruct sc, pf, am, al, mx as [x|]; try destruct (PrimFloat.eqb x 0);
      reflexivity.
Qed.

(** C5: for every record the panel draws, in its first column, the four
    checks in a fixed order, each as the success line when the check holds
    and as the error line with its fixed label when it does not, whatever
    the other checks, the maximum and the failed criteria are; the call
    returns normally. *)
Theorem four_checks_always_drawn (d : EligibilityDetails) :
  result_of (display_eligibility_details (details_json d)) = Ok tt /\
  drawn_in (Column 1) (page (display_eligibility_details (details_json d))) =
    [if salary_check d
     then WSuccess (plain "✅ Minimum salary requirement met")
     else WError (plain "❌ Minimum salary requirement not met");
     if pay_frequency_check d
     then WSuccess (plain "✅ Valid pay frequency")
     else WError (plain "❌ Invalid pay frequency");
     if amount_check d
     then WSuccess (plain "✅ Valid advance amount")
     else WError (plain "❌ Invalid advance amount");
     if advance_limit_check d
     then WSuccess (plain "✅ Within advance limit")
     else WError (plain "❌ Exceeds maximum advance limit")].
Proof.
  unfold result_of, page. rewrite page_display_eligibility_details.
  split; [reflexivity |]. cbn [snd shows screen].
  destruct d as [sc pf am al mx fc]. unfold eligibility_panel.
  cbn [salary_check pay_frequency_check amount_check advance_limit_check
       max_eligible_advance failed_criteria].
  rewrite !drawn_in_app.
  replace (drawn_in (Column 1) match mx with
                         | Some x => [(Column 2, WMetric "Max Eligible Advance"
                                        [Lit "UGX "; Rendered (PFloat x) ",.2f"]
                                        (Some "Maximum advance amount you can request based on your salary"))]
                         | None => []
                         end) with (@nil widget) by (destruct mx; reflexivity).
  destruct fc as [|c rest].
  - destruct sc, pf, am, al; reflexivity.
  - rewrite !drawn_in_app. rewrite drawn_in_column_lines.
    destruct sc, pf, am, al, mx as [x|]; try destruct (PrimFloat.eqb x 0);
      reflexivity.
Qed.

(** C9: the error lines of the panel's main container are the failed
    criteria, one bullet line each, in the order and with the repetitions
    of the sequence received; for the empty sequence there is none. *)
Theorem failed_criteria_in_order (d : EligibilityDetails) :
  error_bodies (drawn_in Main (page (display_eligibility_details (details_json d)))) =
  map (fun c => [Lit ("• " ++ c)%string]) (failed_criteria d).
Proof.
  unfold page. rewrite page_display_eligibility_details. cbn [snd shows screen].
  rewrite panel_main. destruct d as [sc pf am al mx fc].
  cbn [salary_check pay_frequency_check amount_check advance_limit_check
       max_eligible_advance failed_criteria].
  destruct fc as [|c rest]; [reflexivity |].
  change (error_bodies (?a :: ?b :: ?c :: ?l)) with (error_bodies l).
  rewrite error_bodies_app.
  rewrite (error_bodies_lines (fun c => [Lit ("• " ++ c)%string])).
  destruct sc, pf, al, mx as [x|]; try destruct (PrimFloat.eqb x 0);
    cbn; rewrite app_nil_r; reflexivity.
Qed.

(** The hints the panel draws, in order. *)
Lemma panel_hints (d : EligibilityDetails) :
  info_bodies (drawn_in Main (page (display_eligibility_details (details_json d)))) =
  match failed_criteria d with
  | [] => []
  | _ :: _ =>
      (if salary_check d then [] else [hint_salary])
      ++ (if advance_limit_check d then []
          else match max_eligible_advance d with
               | Some x => if PrimFloat.eqb x 0%float then [] else [hint_amount x]
               | None => []
               end)
      ++ (if pay_frequency_check d then [] else [hint_frequency])
  end.
Proof.
  unfold page. rewrite page_display_eligibility_details. cbn [snd shows screen].
  rewrite panel_main. destruct d as [sc pf am al mx fc].
  cbn [salary_check pay_frequency_check amount_check advance_limit_check
       max_eligible_advance failed_criteria].
  destruct fc as [|c rest]; [reflexivity |].
  change (info_bodies (?a :: ?b :: ?c :: ?l)) with (info_bodies l).
  rewrite info_bodies_app.
  rewrite (info_bodies_errors (fun c => [Lit ("• " ++ c)%string])).
  destruct sc, pf, al, mx as [x|]; try destruct (PrimFloat.eqb x 0); reflexivity.
Qed.

(** C1, as the code has it: the hints are drawn only under a non-empty
    [failed_criteria].  Then the salary hint is drawn iff [salary_check]
    is false, the frequency hint iff [pay_frequency_check] is false, and
    the amount hint, with the maximum in it, iff [advance_limit_check] is
    false and [max_eligible_advance] is a number other than zero; each
    of the three is decided by its own fields only. *)
Theorem remediation_hints (d : EligibilityDetails) :
  let hints :=
    info_bodies (drawn_in Main (page (display_eligibility_details (details_json d)))) in
  (In hint_salary hints <-> failed_criteria d <> [] /\ salary_check d = false) /\
  (In hint_frequency hints <->
     failed_criteria d <> [] /\ pay_frequency_check d = false) /\
  (forall x, In (hint_amount x) hints <->
     failed_criteria d <> [] /\ advance_limit_check d = false /\
     max_eligible_advance d = Some x /\ PrimFloat.eqb x 0%float = false).
Proof.
  intros hints. subst hints. rewrite panel_hints.
  destruct d as [sc pf am al mx fc].
  cbn [salary_check pay_frequency_check amount_check advance_limit_check
       max_eligible_advance failed_criteria].
  destruct fc as [|c rest].
  - cbn [In]. (split; [| split; [| intros x]]); intuition congruence.
  - assert (Hne : c :: rest <> []) by discriminate.
    unfold hint_salary, hint_frequency, hint_amount, plain.
    destruct sc, pf, al, mx as [y|]; try destruct (PrimFloat.eqb y 0) eqn:Ey;
      cbn [app In]; (split; [| split; [| intros x]]);
      intuition congruence.
Qed.

(** C1, the claim as stated fails: with no failed criteria a false
    [salary_check] draws no hint, and a maximum of zero draws no amount
    hint under a false [advance_limit_check]. *)
Lemma hints_not_independent_of_failed_criteria :
  salary_check (mkDetails false true true true None []) = false /\
  info_bodies (drawn_in Main (page (display_eligibility_details
     (details_json (mkDetails false true true true None []))))) = [] /\
  advance_limit_check
    (mkDetails true true true false (Some 0%float) ["Exceeds maximum advance limit"]) = false /\
  max_eligible_advance
    (mkDetails true true true false (Some 0%float) ["Exceeds maximum advance limit"]) <> None /\
  info_bodies (drawn_in Main (page (display_eligibility_details
     (details_json
        (mkDetails true true true false (Some 0%float)
           ["Exceeds maximum advance limit"]))))) = [].
Proof. repeat split; try reflexivity. discriminate. Qed.

(** ** What is drawn stays drawn *)

Lemma keeps_ret A (a : A) : keeps (ret a).
Proof. intros w. exists []. symmetry. apply app_nil_r. Qed.

Lemma keeps_lift A (o : outcome A) : keeps (lift o).
Proof. intros w. exists []. symmetry. apply app_nil_r. Qed.

Lemma keeps_emit x : keeps (st.emit x).
Proof. intros w. eexists. reflexivity. Qed.

Lemma keeps_bind A B (c : M A) (k : A -> M B) :
  keeps c -> (forall a, keeps (k a)) -> keeps (bind c k).
Proof.
  intros Hc Hk w. unfold bind. destruct (Hc w) as [m1 H1].
  destruct (c w) as [[a|e] w']; simpl in *.
  - destruct (Hk a w') as [m2 H2]. exists (m1 ++ m2).
    rewrite H2, H1, app_assoc. reflexivity.
  - exists m1. exact H1.
Qed.

Lemma keeps_within A p (body : M A) : keeps body -> keeps (st.within p body).
Proof.
  intros Hb w. unfold st.within.
  destruct (Hb {| container := p; screen := screen w; wire := wire w |}) as [m H].
  destruct (body _) as [o w']. simpl in *. exists m. exact H.
Qed.

Lemma keeps_for_each items body :
  (forall x, keeps (body x)) -> keeps (for_each items body).
Proof.
  intros Hb. induction items as [|x rest IH]; simpl.
  - apply keeps_ret.
  - apply keeps_bind; [apply Hb | intros _; exact IH].
Qed.

Lemma keeps_for_in v body :
  (forall x, keeps (body x)) -> keeps (for_in v body).
Proof.
  intros Hb. apply keeps_bind; [apply keeps_lift | intros items].
  apply keeps_for_each, Hb.
Qed.

Create HintDb keeps.
#[export] Hint Resolve keeps_ret keeps_lift keeps_emit keeps_within
  keeps_for_each keeps_for_in : keeps.

Ltac keeps_step :=
  match goal with
  | |- keeps (bind _ _) => apply keeps_bind; [| intros ?]
  | |- keeps (if ?b then _ else _) => destruct b
  | |- keeps (match ?x with _ => _ end) => destruct x
  | |- keeps (st.within _ _) => apply keeps_within
  | |- keeps (for_in _ _) => apply keeps_for_in; intros ?
  | |- keeps _ => solve [auto with keeps]
  | |- keeps _ => exact (keeps_emit _)
  | |- keeps _ => progress cbv zeta
  end.

Ltac keeps_solve := repeat keeps_step.

Lemma keeps_display_result result error_msg : keeps (display_result result error_msg).
Proof. unfold display_result. keeps_solve. Qed.

Lemma keeps_display_eligibility_details v : keeps (display_eligibility_details v).
Proof. unfold display_eligibility_details. keeps_solve. Qed.

Lemma keeps_amortization_schedule parses other schedule employee_id term :
  keeps (amortization_schedule parses other schedule employee_id term).
Proof. unfold amortization_schedule. keeps_solve. Qed.

Lemma keeps_make_request backend endpoint payload :
  keeps (make_request backend endpoint payload).
Proof.
  intros w. exists []. unfold make_request, bind, post. cbv beta iota.
  destruct (backend _ payload) as [body|[e|e|e]]; simpl; rewrite app_nil_r; reflexivity.
Qed.

#[export] Hint Resolve keeps_display_result keeps_display_eligibility_details
  keeps_amortization_schedule keeps_make_request : keeps.

Lemma keeps_advance_flow backend employee_id gross_salary pay_frequency requested :
  keeps (advance_flow backend employee_id gross_salary pay_frequency requested).
Proof. unfold advance_flow. keeps_solve. Qed.

Lemma keeps_loan_flow backend parses other employee_id loan_amount slider term :
  keeps (loan_flow backend parses other employee_id loan_amount slider term).
Proof. unfold loan_flow. keeps_solve. Qed.

(** ** The loan flow on a record of the backend *)

Section LoanAnswer.

Variable backend : string -> pyval -> requests.attempt.
Variable parses_as_datetime : string -> bool.
Variable DataFrame_of_other : pyval -> outcome pd.DataFrame.
Variable employee_id : string.
Variables loan_amount slider : float.
Variable loan_term_months : Z.
Variable r : LoanResponse.

Hypothesis employee_id_given : employee_id <> "".
Hypothesis answered :
  backend "http://backend:8000/calculate_loan"
    (loan_payload employee_id loan_amount (interest_rate slider) loan_term_months) =
  requests.Responded (loan_response_json r).
Hypothesis no_error : error r <> Some true.

Let the_request : request :=
  mkRequest "POST" "http://backend:8000/calculate_loan"
    (loan_payload employee_id loan_amount (interest_rate slider) loan_term_months).

Lemma loan_flow_not_requested :
  loan_requested r <> Some true ->
  run (loan_flow backend parses_as_datetime DataFrame_of_other
         employee_id loan_amount slider loan_term_months) =
  (Ok tt, {| container := Main;
             screen := [(Main, WSpinner "Calculating...")];
             wire := [the_request] |}).
Proof.
  intros Hreq. unfold run, loan_flow. rewrite (nonempty_truthy employee_id_given).
  unfold bind, make_request, post, st.spinner, st.emit. cbn [negb blank container screen wire app].
  change (FASTAPI_BACKEND_URL ++ "/" ++ "calculate_loan")%string
    with "http://backend:8000/calculate_loan".
  rewrite answered. unfold ret. cbn [fst snd].
  destruct r as [er em lr tot sch]. cbn [error loan_requested] in *.
  destruct er as [[|]|]; [congruence | |];
    destruct lr as [[|]|]; try congruence;
    destruct em, tot, sch; reflexivity.
Qed.

Lemma loan_flow_requested :
  loan_requested r = Some true ->
  run (loan_flow backend parses_as_datetime DataFrame_of_other
         employee_id loan_amount slider loan_term_months) =
  amortization_schedule parses_as_datetime DataFrame_of_other
    (schedule_json (loan_amortization_schedule r)) employee_id loan_term_months
    {| container := Main;
       screen := loan_summary loan_amount slider loan_term_months
                   (total_json (loan_total_repayable_amount r));
       wire := [the_request] |}.
Proof.
  intros Hreq. unfold run, loan_flow. rewrite (nonempty_truthy employee_id_given).
  unfold bind at 1 2. unfold make_request, post, st.spinner, st.emit.
  cbn [negb blank container screen wire app bind].
  unfold bind at 1.
  change (FASTAPI_BACKEND_URL ++ "/" ++ "calculate_loan")%string
    with "http://backend:8000/calculate_loan".
  rewrite answered. unfold ret at 1. cbn [fst snd]. cbv beta iota.
  destruct r as [er em lr tot sch]. cbn [error loan_requested loan_total_repayable_amount
    loan_amortization_schedule] in *. subst lr.
  destruct er as [[|]|]; [congruence | |];
    destruct em, tot, sch; reflexivity.
Qed.

End LoanAnswer.

(** ** The schedule table and its download *)

Lemma records_rows (rows : list AmortizationRow) :
  records (map row_json rows) = Some (map row_entries rows).
Proof.
  induction rows as [|r rest IH]; [reflexivity |].
  cbn [map records row_json]. rewrite IH. reflexivity.
Qed.

Lemma labels_rows (r0 : AmortizationRow) (rest : list AmortizationRow) :
  labels (map row_entries (r0 :: rest)) =
  ["Payment_Number"; "Payment_Date"; "Beginning_Balance"; "Monthly_Payment";
   "Interest_Paid"; "Principal_Paid"; "Ending_Balance"].
Proof.
  unfold labels. cbn [map fold_left].
  change (add_keys [] (row_entries r0)) with
    ["Payment_Number"; "Payment_Date"; "Beginning_Balance"; "Monthly_Payment";
     "Interest_Paid"; "Principal_Paid"; "Ending_Balance"].
  induction rest as [|r rest IH]; [reflexivity |].
  cbn [map fold_left]. exact IH.
Qed.

Lemma existsb_map_false A B (p : B -> bool) (g : A -> B) (l : list A) :
  (forall a, In a l -> p (g a) = false) -> existsb p (map g l) = false.
Proof.
  induction l as [|a l IH]; intros H; [reflexivity |].
  cbn [map existsb]. rewrite (H a (or_introl eq_refl)).
  rewrite IH; [reflexivity |]. intros b Hb. apply H. right. exact Hb.
Qed.

(** A column that holds one float in every record is a float64 column of
    these floats. *)
Lemma series_of_floats A key (entries : A -> list (string * pyval)) (x : A -> float)
    (l : list A) :
  (forall a, In a l -> lookup key (entries a) = Some (PFloat (x a))) ->
  series_of key (map entries l) = map (fun a => pd.Obj (PFloat (x a))) l.
Proof.
  intros H. unfold series_of. cbv zeta.
  destruct (float64 (map (lookup key) (map entries l))).
  - rewrite !map_map. apply map_ext_in. intros a Ha. rewrite (H a Ha). reflexivity.
  - rewrite map_map. apply map_ext_in. intros a Ha. unfold cell_of.
    rewrite (H a Ha). reflexivity.
Qed.

(** A column that holds in every record a value that is neither a float
    nor [None] keeps these values. *)
Lemma series_of_objects A key (entries : A -> list (string * pyval)) (v : A -> pyval)
    (l : list A) :
  (forall a, In a l -> lookup key (entries a) = Some (v a)) ->
  (forall a, In a l -> match v a with PFloat _ | PNone => False | _ => True end) ->
  series_of key (map entries l) = map (fun a => pd.Obj (v a)) l.
Proof.
  intros H Hv. unfold series_of. cbv zeta.
  assert (Hf : float64 (map (lookup key) (map entries l)) = false).
  { unfold float64. rewrite !map_map.
    rewrite (existsb_map_false is_float), (existsb_map_false is_gap),
      (existsb_map_false is_null).
    - rewrite andb_false_r. apply andb_false_r.
    - intros a Ha. rewrite (H a Ha). specialize (Hv a Ha).
      destruct (v a); try reflexivity; contradiction.
    - intros a Ha. rewrite (H a Ha). reflexivity.
    - intros a Ha. rewrite (H a Ha). specialize (Hv a Ha).
      destruct (v a); try reflexivity; contradiction. }
  rewrite Hf. rewrite map_map. apply map_ext_in. intros a Ha. unfold cell_of.
  rewrite (H a Ha). reflexivity.
Qed.

Lemma DataFrame_rows other (r0 : AmortizationRow) (rest : list AmortizationRow) :
  DataFrame other (PList (map row_json (r0 :: rest))) = Ok (raw_frame (r0 :: rest)).
Proof.
  unfold DataFrame. rewrite records_rows, labels_rows.
  generalize (r0 :: rest). intros rs.
  unfold raw_frame. cbn [map].
  rewrite (series_of_objects "Payment_Number" row_entries
             (fun r => PInt (Payment_Number r)) rs (fun _ _ => eq_refl) (fun _ _ => I)).
  rewrite (series_of_objects "Payment_Date" row_entries
             (fun r => PStr (Payment_Date r)) rs (fun _ _ => eq_refl) (fun _ _ => I)).
  rewrite (series_of_floats "Beginning_Balance" row_entries Beginning_Balance rs
             (fun _ _ => eq_refl)).
  rewrite (series_of_floats "Monthly_Payment" row_entries Monthly_Payment rs
             (fun _ _ => eq_refl)).
  rewrite (series_of_floats "Interest_Paid" row_entries Interest_Paid rs
             (fun _ _ => eq_refl)).
  rewrite (series_of_floats "Principal_Paid" row_entries Principal_Paid rs
             (fun _ _ => eq_refl)).
  rewrite (series_of_floats "Ending_Balance" row_entries Ending_Balance rs
             (fun _ _ => eq_refl)).
  reflexivity.
Qed.

Lemma traverse_map A B C (f : B -> outcome C) (g : A -> B) (h : A -> C) (l : list A) :
  (forall a, In a l -> f (g a) = Ok (h a)) ->
  traverse f (map g l) = Ok (map h l).
Proof.
  induction l as [|a l IH]; intros H; [reflexivity |].
  cbn [map traverse]. rewrite (H a (or_introl eq_refl)).
  rewrite IH; [reflexivity |]. intros b Hb. apply H. right. exact Hb.
Qed.

Lemma zip_cons_map A (f : A -> pd.cell) (g : A -> list pd.cell) (l : list A) :
  zip_cons (map f l) (map g l) = map (fun a => f a :: g a) l.
Proof. induction l as [|a l IH]; [reflexivity |]. cbn. rewrite IH. reflexivity. Qed.

Lemma repeat_nil_map A B (f : A -> B) (l : list A) :
  repeat (@nil pd.cell) (List.length (map f l)) = map (fun _ => []) l.
Proof. induction l as [|a l IH]; [reflexivity |]. cbn. rewrite IH. reflexivity. Qed.

Lemma to_csv_raw_frame (rs : list AmortizationRow) :
  to_csv (raw_frame rs) = raw_csv rs.
Proof.
  unfold to_csv, raw_csv, rows, height, raw_frame.
  cbn [pd.columns map fst snd fold_right].
  rewrite repeat_nil_map. rewrite !zip_cons_map. reflexivity.
Qed.

Lemma to_datetime_dates parses (rs : list AmortizationRow) :
  Forall (fun row => parses (Payment_Date row) = true) rs ->
  to_datetime parses (map (fun r => pd.Obj (PStr (Payment_Date r))) rs) =
  Ok (map (fun r => pd.Timestamp (PStr (Payment_Date r))) rs).
Proof.
  intros Hp. unfold to_datetime. apply traverse_map.
  intros a Ha. cbn. rewrite Forall_forall in Hp. rewrite (Hp a Ha). reflexivity.
Qed.

Lemma apply_format_currency (f : AmortizationRow -> float) (rs : list AmortizationRow) :
  apply (map (fun r => pd.Obj (PFloat (f r))) rs) format_currency =
  Ok (map (fun r => money (f r)) rs).
Proof. unfold apply. apply traverse_map. intros a _. reflexivity. Qed.

Lemma format_columns_schedule (rs : list AmortizationRow) :
  format_columns currency_cols
    (setitem (raw_frame rs) "Payment_Date"
       (map (fun r => pd.Timestamp (PStr (Payment_Date r))) rs)) =
  Ok (pd.mkFrame None
        (("Payment_Number", map (fun r => pd.Obj (PInt (Payment_Number r))) rs)
         :: pd.columns (shown_table rs))).
Proof.
  unfold currency_cols, raw_frame, setitem, shown_table.
  cbn [pd.columns pd.index replace_column String.eqb Ascii.eqb Bool.eqb].
  cbn [format_columns mem map fst existsb String.eqb Ascii.eqb Bool.eqb orb pd.columns
       getitem column].
  rewrite (apply_format_currency Beginning_Balance).
  cbn [format_columns mem map fst existsb String.eqb Ascii.eqb Bool.eqb orb pd.columns
       getitem column setitem replace_column pd.index].
  rewrite (apply_format_currency Monthly_Payment).
  cbn [format_columns mem map fst existsb String.eqb Ascii.eqb Bool.eqb orb pd.columns
       getitem column setitem replace_column pd.index].
  rewrite (apply_format_currency Interest_Paid).
  cbn [format_columns mem map fst existsb String.eqb Ascii.eqb Bool.eqb orb pd.columns
       getitem column setitem replace_column pd.index].
  rewrite (apply_format_currency Principal_Paid).
  cbn [format_columns mem map fst existsb String.eqb Ascii.eqb Bool.eqb orb pd.columns
       getitem column setitem replace_column pd.index].
  rewrite (apply_format_currency Ending_Balance).
  reflexivity.
Qed.

Lemma amortization_schedule_rows parses other employee_id term
    (r0 : AmortizationRow) (rest : list AmortizationRow) (w : world) :
  Forall (fun row => parses (Payment_Date row) = true) (r0 :: rest) ->
  amortization_schedule parses other (PList (map row_json (r0 :: rest)))
    employee_id term w =
  (Ok tt,
   {| container := container w;
      screen := screen w ++
        [(container w, WText (plain "### 📊 Amortization Schedule"));
         (container w, WDataframe (shown_table (r0 :: rest)) true);
         (container w,
          WDownloadButton "📥 Download Schedule as CSV"
            (pd.mkEncoded "utf-8" (raw_csv (r0 :: rest)))
            [Lit ("amortization_schedule_" ++ employee_id ++ "_"
                  ++ str_int term ++ "months.csv")%string]
            "text/csv")];
      wire := wire w |}).
Proof.
  intros Hp. unfold amortization_schedule.
  change (truthy (PList (map row_json (r0 :: rest)))) with true. cbv iota.
  rewrite !DataFrame_rows.
  unfold bind, lift, st.write, st.emit. cbv beta iota zeta.
  change (getitem (raw_frame (r0 :: rest)) "Payment_Date")
    with (Ok (map (fun r => pd.Obj (PStr (Payment_Date r))) (r0 :: rest))).
  cbv beta iota. rewrite (to_datetime_dates _ Hp). cbv beta iota.
  rewrite format_columns_schedule. cbv beta iota.
  unfold encode. rewrite to_csv_raw_frame.
  unfold st.dataframe, st.download_button, st.emit. cbn -[raw_csv shown_table str_int].
  rewrite <- !app_assoc. reflexivity.
Qed.

Section LoanTheorems.

Variable backend : string -> pyval -> requests.attempt.
Variable parses_as_datetime : string -> bool.
Variable DataFrame_of_other : pyval -> outcome pd.DataFrame.
Variable employee_id : string.
Variables loan_amount slider : float.
Variable loan_term_months : Z.
Variable r : LoanResponse.

Let flow : M unit :=
  loan_flow backend parses_as_datetime DataFrame_of_other
    employee_id loan_amount slider loan_term_months.

(** C6: after an answer that is not an error, the loan flow draws the
    summary (the three metrics and the total, printed from 0 when the
    field is absent) and goes on to the schedule only when
    [loan_requested] is true; otherwise nothing follows the spinner.
    With [loan_requested] true and the schedule absent or empty it ends,
    normally, with the "No amortization schedule available." info
    line. *)
Theorem loan_result_gate :
  employee_id <> "" ->
  backend "http://backend:8000/calculate_loan"
    (loan_payload employee_id loan_amount (interest_rate slider) loan_term_months) =
    requests.Responded (loan_response_json r) ->
  error r <> Some true ->
  (loan_requested r <> Some true ->
     result_of flow = Ok tt /\ page flow = [(Main, WSpinner "Calculating...")]) /\
  (loan_requested r = Some true ->
     (exists rest,
        page flow =
          loan_summary loan_amount slider loan_term_months
            (match loan_total_repayable_amount r with
             | Some t => PFloat t
             | None => PInt 0
             end) ++ rest) /\
     (loan_amortization_schedule r = None \/ loan_amortization_schedule r = Some [] ->
        result_of flow = Ok tt /\
        page flow =
          loan_summary loan_amount slider loan_term_months
            (match loan_total_repayable_amount r with
             | Some t => PFloat t
             | None => PInt 0
             end)
          ++ [(Main, WInfo (plain "No amortization schedule available."))])).
Proof.
  intros Hid Hb He. split.
  - intros Hreq. unfold result_of, page, flow.
    rewrite (@loan_flow_not_requested backend parses_as_datetime DataFrame_of_other
               employee_id loan_amount slider loan_term_months r Hid Hb He Hreq).
    split; reflexivity.
  - intros Hreq. unfold result_of, page, flow.
    rewrite (@loan_flow_requested backend parses_as_datetime DataFrame_of_other
             employee_id loan_amount slider loan_term_months r Hid Hb He Hreq).
    fold (total_json (loan_total_repayable_amount r)). split.
    + destruct (keeps_amortization_schedule parses_as_datetime DataFrame_of_other
                  (schedule_json (loan_amortization_schedule r)) employee_id
                  loan_term_months
                  {| container := Main;
                     screen := loan_summary loan_amount slider loan_term_months
                                 (total_json (loan_total_repayable_amount r));
                     wire := [mkRequest "POST" "http://backend:8000/calculate_loan"
                                (loan_payload employee_id loan_amount
                                   (interest_rate slider) loan_term_months)] |})
        as [more Hmore].
      exists more. exact Hmore.
    + intros [Hs|Hs]; rewrite Hs; split; reflexivity.
Qed.

(** C8: for a non-empty schedule whose dates pandas parses, the loan
    flow ends with the table and the download button.  The download is
    named amortization_schedule_<employee_id>_<loan_term_months>months.csv,
    is the "utf-8" encoding of the header line followed by one line per
    row with the values as received, and has no currency string in it;
    the table on the page has the five amounts as "UGX ..." strings. *)
Theorem schedule_download (rows : list AmortizationRow) :
  employee_id <> "" ->
  backend "http://backend:8000/calculate_loan"
    (loan_payload employee_id loan_amount (interest_rate slider) loan_term_months) =
    requests.Responded (loan_response_json r) ->
  error r <> Some true ->
  loan_requested r = Some true ->
  loan_amortization_schedule r = Some rows ->
  rows <> [] ->
  Forall (fun row => parses_as_datetime (Payment_Date row) = true) rows ->
  result_of flow = Ok tt /\
  page flow =
    loan_summary loan_amount slider loan_term_months
      (total_json (loan_total_repayable_amount r))
    ++ [(Main, WText (plain "### 📊 Amortization Schedule"));
        (Main, WDataframe (shown_table rows) true);
        (Main,
         WDownloadButton "📥 Download Schedule as CSV"
           (pd.mkEncoded "utf-8" (schedule_header :: map raw_line rows))
           [Lit ("amortization_schedule_" ++ employee_id ++ "_"
                 ++ str_int loan_term_months ++ "months.csv")%string]
           "text/csv")].
Proof.
  intros Hid Hb He Hreq Hs Hne Hp. unfold result_of, page, flow.
  rewrite (@loan_flow_requested backend parses_as_datetime DataFrame_of_other
             employee_id loan_amount slider loan_term_months r Hid Hb He Hreq).
  rewrite Hs. destruct rows as [|r0 rest]; [congruence |].
  cbn [schedule_json]. rewrite (@amortization_schedule_rows _ _ _ _ _ _ _ Hp).
  split; reflexivity.
Qed.

End LoanTheorems.

Lemma loan_result_gate_witness :
  result_of (loan_flow
               (fun _ _ => requests.Responded
                  (loan_response_json (mkLoanResponse None None (Some true) None None)))
               (fun _ => true) (fun _ => Raise ValueError)
               "EMP001" 1000000%float 7%float 12) = Ok tt /\
  page (loan_flow
          (fun _ _ => requests.Responded
             (loan_response_json (mkLoanResponse None None (Some true) None None)))
          (fun _ => true) (fun _ => Raise ValueError)
          "EMP001" 1000000%float 7%float 12) =
    loan_summary 1000000%float 7%float 12 (PInt 0)
    ++ [(Main, WInfo (plain "No amortization schedule available."))].
Proof.
  refine (proj2 (proj2 (@loan_result_gate
            (fun _ _ => requests.Responded
               (loan_response_json (mkLoanResponse None None (Some true) None None)))
            (fun _ => true) (fun _ => Raise ValueError)
            "EMP001" 1000000%float 7%float 12
            (mkLoanResponse None None (Some true) None None) _ _ _) eq_refl)
          (or_introl eq_refl)).
  - discriminate.
  - reflexivity.
  - discriminate.
Defined.

Lemma schedule_download_witness :
  page (loan_flow
          (fun _ _ => requests.Responded
             (loan_response_json
                (mkLoanResponse None None (Some true) (Some 1038324%float)
                   (Some [mkRow 1 "2024-01-01" 1000000 86527 5833 80693 919306;
                          mkRow 2 "2024-02-01" 919306 86527 5362 81164 838141]))))
          (fun _ => true) (fun _ => Raise ValueError)
          "EMP001" 1000000%float 7%float 12) =
    loan_summary 1000000%float 7%float 12 (PFloat 1038324%float)
    ++ [(Main, WText (plain "### 📊 Amortization Schedule"));
        (Main,
         WDataframe
           (shown_table [mkRow 1 "2024-01-01" 1000000 86527 5833 80693 919306;
                         mkRow 2 "2024-02-01" 919306 86527 5362 81164 838141]) true);
        (Main,
         WDownloadButton "📥 Download Schedule as CSV"
           (pd.mkEncoded "utf-8"
              (schedule_header
               :: map raw_line
                    [mkRow 1 "2024-01-01" 1000000 86527 5833 80693 919306;
                     mkRow 2 "2024-02-01" 919306 86527 5362 81164 838141]))
           [Lit "amortization_schedule_EMP001_12months.csv"] "text/csv")].
Proof.
  refine (proj2 (@schedule_download
            (fun _ _ => requests.Responded
               (loan_response_json
                  (mkLoanResponse None None (Some true) (Some 1038324%float)
                     (Some [mkRow 1 "2024-01-01" 1000000 86527 5833 80693 919306;
                            mkRow 2 "2024-02-01" 919306 86527 5362 81164 838141]))))
            (fun _ => true) (fun _ => Raise ValueError)
            "EMP001" 1000000%float 7%float 12
            (mkLoanResponse None None (Some true) (Some 1038324%float)
               (Some [mkRow 1 "2024-01-01" 1000000 86527 5833 80693 919306;
                      mkRow 2 "2024-02-01" 919306 86527 5362 81164 838141]))
            [mkRow 1 "2024-01-01" 1000000 86527 5833 80693 919306;
             mkRow 2 "2024-02-01" 919306 86527 5362 81164 838141]
            _ _ _ eq_refl eq_refl _ _)).
  - discriminate.
  - reflexivity.
  - discriminate.
  - discriminate.
  - repeat constructor.
Defined.

(** ** The interest rate: binary64 division by 100

    Division is the one of [SpecFloat]: the quotient of the mantissas,
    shifted right to 53 bits and rounded to nearest even. *)

Unset Implicit Arguments.

Lemma digits2_pos_size p : digits2_pos p = Pos.size p.
Proof. induction p; simpl; congruence. Qed.

Lemma digits2_pos_bounds p :
  2 ^ (Zpos (digits2_pos p) - 1) <= Zpos p < 2 ^ Zpos (digits2_pos p).
Proof.
  rewrite digits2_pos_size. split.
  - pose proof (Pos.size_le p) as H.
    assert (H0 : Zpos (2 ^ Pos.size p) <= Zpos p~0) by (apply Pos2Z.pos_le_pos; exact H).
    rewrite Pos2Z.inj_pow in H0.
    replace (Zpos (Pos.size p)) with (Z.succ (Zpos (Pos.size p) - 1)) in H0 by lia.
    rewrite Z.pow_succ_r in H0 by lia. lia.
  - pose proof (Pos.size_gt p) as H.
    assert (H0 : Zpos p < Zpos (2 ^ Pos.size p)) by (apply Pos2Z.pos_lt_pos; exact H).
    now rewrite Pos2Z.inj_pow in H0.
Qed.

Lemma Zdigits2_le m k : 0 <= k -> 0 <= m <= 2 ^ k -> Zdigits2 m <= k + 1.
Proof.
  intros Hk [H0 Hm]. destruct m as [|p|p]; simpl; try lia.
  destruct (digits2_pos_bounds p) as [Hlo _].
  destruct (Z_le_gt_dec (Zpos (digits2_pos p)) (k + 1)) as [|Hgt]; [assumption|exfalso].
  assert (2 ^ (k + 1) <= 2 ^ (Zpos (digits2_pos p) - 1)) by (apply Z.pow_le_mono_r; lia).
  assert (2 ^ k < 2 ^ (k + 1)) by (apply Z.pow_lt_mono_r; lia).
  lia.
Qed.

Lemma shr_1_spec mrs :
  0 <= shr_m mrs ->
  shr_m (shr_1 mrs) = shr_m mrs / 2 /\
  (shr_r (shr_1 mrs) = true -> shr_m mrs mod 2 <> 0).
Proof.
  destruct mrs as [m r s]. cbn [shr_m]. intros H.
  destruct m as [|[p|p|]|p]; cbn [shr_1 shr_m shr_r]; try lia.
  - split; [reflexivity | discriminate].
  - split.
    + rewrite Pos2Z.inj_xI. apply (Z.div_unique _ _ _ 1); lia.
    + intros _. rewrite Pos2Z.inj_xI, Z.add_comm, Z.mul_comm, Z.mod_add by lia. discriminate.
  - split; [| discriminate].
    rewrite Pos2Z.inj_xO. apply (Z.div_unique _ _ _ 0); lia.
  - split; [reflexivity | intros _; discriminate].
Qed.

Lemma iter_shr_1_spec p : forall mrs,
  0 <= shr_m mrs ->
  shr_m (iter_pos shr_1 p mrs) = shr_m mrs / 2 ^ Zpos p /\
  (shr_r (iter_pos shr_1 p mrs) = true -> shr_m mrs mod 2 ^ Zpos p <> 0).
Proof.
  induction p as [p IH|p IH|]; intros mrs Hm; cbn [iter_pos].
  - destruct (shr_1_spec mrs Hm) as [E1 R1].
    assert (H1 : 0 <= shr_m (shr_1 mrs)) by (rewrite E1; apply Z.div_pos; lia).
    destruct (IH _ H1) as [E2 R2].
    assert (Hp : 0 < 2 ^ Zpos p) by (apply Z.pow_pos_nonneg; lia).
    assert (H2 : 0 <= shr_m (iter_pos shr_1 p (shr_1 mrs)))
      by (rewrite E2; apply Z.div_pos; lia).
    destruct (IH _ H2) as [E3 R3].
    assert (Epow : 2 ^ Zpos p~1 = 2 * (2 ^ Zpos p * 2 ^ Zpos p)).
    { transitivity (2 ^ Z.succ (Zpos p + Zpos p)); [f_equal; lia |].
      rewrite Z.pow_succ_r, Z.pow_add_r by lia. reflexivity. }
    rewrite Epow. split.
    + rewrite E3, E2, E1. rewrite !Z.div_div by lia. reflexivity.
    + intros Hr. specialize (R3 Hr). rewrite E2, E1 in R3.
      rewrite Z.rem_mul_r by lia.
      rewrite (Z.rem_mul_r (shr_m mrs / 2)) by lia.
      pose proof (Z.mod_pos_bound (shr_m mrs) 2 ltac:(lia)) as B1.
      pose proof (Z.mod_pos_bound (shr_m mrs / 2) (2 ^ Zpos p) Hp) as B2.
      pose proof (Z.mod_pos_bound (shr_m mrs / 2 / 2 ^ Zpos p) (2 ^ Zpos p) Hp) as B3.
      set (a := shr_m mrs mod 2) in *.
      set (b := (shr_m mrs / 2) mod 2 ^ Zpos p) in *.
      set (c := (shr_m mrs / 2 / 2 ^ Zpos p) mod 2 ^ Zpos p) in *.
      set (q := 2 ^ Zpos p) in *.
      assert (0 < q * c) by (apply Z.mul_pos_pos; lia).
      lia.
  - destruct (IH _ Hm) as [E2 R2].
    assert (Hp : 0 < 2 ^ Zpos p) by (apply Z.pow_pos_nonneg; lia).
    assert (H2 : 0 <= shr_m (iter_pos shr_1 p mrs))
      by (rewrite E2; apply Z.div_pos; lia).
    destruct (IH _ H2) as [E3 R3].
    assert (Epow : 2 ^ Zpos p~0 = 2 ^ Zpos p * 2 ^ Zpos p).
    { transitivity (2 ^ (Zpos p + Zpos p)); [f_equal; lia |].
      rewrite Z.pow_add_r by lia. reflexivity. }
    rewrite Epow. split.
    + rewrite E3, E2. rewrite !Z.div_div by lia. reflexivity.
    + intros Hr. specialize (R3 Hr). rewrite E2 in R3.
      rewrite Z.rem_mul_r by lia.
      pose proof (Z.mod_pos_bound (shr_m mrs) (2 ^ Zpos p) Hp) as B1.
      pose proof (Z.mod_pos_bound (shr_m mrs / 2 ^ Zpos p) (2 ^ Zpos p) Hp) as B2.
      set (a := shr_m mrs mod 2 ^ Zpos p) in *.
      set (c := (shr_m mrs / 2 ^ Zpos p) mod 2 ^ Zpos p) in *.
      set (q := 2 ^ Zpos p) in *.
      assert (0 < q * c) by (apply Z.mul_pos_pos; lia).
      lia.
  - change (2 ^ 1) with 2. apply shr_1_spec; assumption.
Qed.

Lemma shr_m_of_loc m l : shr_m (shr_record_of_loc m l) = m.
Proof. destruct l as [|[| |]]; reflexivity. Qed.

Lemma fexp_eq x : fexp prec emax x = Z.max (x - 53) (-1074).
Proof. reflexivity. Qed.

Lemma shr_fexp_bound m e l :
  0 <= m -> -1074 <= e <= -54 -> m <= 2 ^ (- e - 2) ->
  (shr_r (shr_record_of_loc m l) = true -> m < 2 ^ (- e - 2)) ->
  exists mrs e1,
    shr_fexp prec emax m e l = (mrs, e1) /\
    0 <= shr_m mrs /\ -1074 <= e1 <= -54 /\
    shr_m mrs <= 2 ^ (- e1 - 2) /\
    (shr_r mrs = true -> shr_m mrs < 2 ^ (- e1 - 2)).
Proof.
  intros Hm He Hle Hstrict. unfold shr_fexp, shr. rewrite fexp_eq.
  assert (Hd : Zdigits2 m <= - e - 1).
  { replace (- e - 1) with ((- e - 2) + 1) by lia. apply Zdigits2_le; lia. }
  destruct (Z.max (Zdigits2 m + e - 53) (-1074) - e) as [|p|p] eqn:En.
  - eexists _, _. split; [reflexivity |]. rewrite shr_m_of_loc. repeat split; try lia. exact Hstrict.
  - eexists _, _. split; [reflexivity |].
    assert (Hrec : 0 <= shr_m (shr_record_of_loc m l)) by (rewrite shr_m_of_loc; lia).
    destruct (iter_shr_1_spec p _ Hrec) as [Em Er]. rewrite shr_m_of_loc in Em, Er.
    rewrite Em.
    assert (Hp : 0 < 2 ^ Zpos p) by (apply Z.pow_pos_nonneg; lia).
    assert (He1 : -1074 <= e + Zpos p <= -54) by lia.
    assert (Hpow : 2 ^ (- e - 2) = 2 ^ Zpos p * 2 ^ (- (e + Zpos p) - 2)).
    { rewrite <- Z.pow_add_r by lia. f_equal. lia. }
    assert (Hq : m / 2 ^ Zpos p <= 2 ^ (- (e + Zpos p) - 2)).
    { apply Z.div_le_upper_bound; [lia |]. rewrite <- Hpow. exact Hle. }
    repeat split; try lia.
    + apply Z.div_pos; lia.
    + intros Hr. specialize (Er Hr).
      pose proof (Z.div_mod m (2 ^ Zpos p) ltac:(lia)) as Hdm.
      pose proof (Z.mod_pos_bound m (2 ^ Zpos p) Hp) as Hb.
      set (d := 2 ^ Zpos p) in *. set (B := 2 ^ (- (e + Zpos p) - 2)) in *.
      set (qq := m / d) in *. set (rr := m mod d) in *.
      destruct (Z_lt_ge_dec qq B) as [|Hge]; [assumption | exfalso].
      assert (qq = B) by lia. subst qq. nia.
  - eexists _, _. split; [reflexivity |]. rewrite shr_m_of_loc. repeat split; try lia. exact Hstrict.
Qed.

Lemma round_nearest_even_bound mrs B :
  0 <= shr_m mrs <= B -> (shr_r mrs = true -> shr_m mrs < B) ->
  0 <= round_nearest_even (shr_m mrs) (loc_of_shr_record mrs) <= B.
Proof.
  destruct mrs as [m [|] [|]]; unfold round_nearest_even, loc_of_shr_record, shr_m, shr_r;
    intros H Hs; try lia;
    specialize (Hs eq_refl); try (destruct (Z.even m)); lia.
Qed.

Lemma SFleb_finite_pos m1 e1 m2 e2 :
  e1 < e2 \/ (e1 = e2 /\ Zpos m1 <= Zpos m2) ->
  SFleb (S754_finite false m1 e1) (S754_finite false m2 e2) = true.
Proof.
  intros H. unfold SFleb, SFcompare.
  destruct (Z.compare_spec e1 e2) as [Heq|Hlt|Hgt]; [| reflexivity | lia].
  fold (Pos.compare m1 m2).
  destruct (Pos.compare_spec m1 m2) as [E|L|G]; try reflexivity.
  exfalso. apply Pos2Z.pos_lt_pos in G. lia.
Qed.

Lemma round_aux_bound q e l :
  0 <= q -> -1074 <= e <= -54 -> q <= 2 ^ (- e - 2) ->
  (l <> loc_Exact -> q < 2 ^ (- e - 2)) ->
  SFleb (S754_zero false) (binary_round_aux prec emax false q e l) = true /\
  SFleb (binary_round_aux prec emax false q e l) sf_quarter = true.
Proof.
  intros Hq He Hle Hstrict. unfold binary_round_aux.
  destruct (shr_fexp_bound q e l Hq He Hle) as (mrs1 & e1 & E1 & Hm1 & He1 & Hle1 & Hs1).
  { intros Hr. apply Hstrict. intros ->. discriminate. }
  rewrite E1.
  pose proof (@round_nearest_even_bound mrs1 _ (conj Hm1 Hle1) Hs1) as [Hr0 Hr1].
  set (mr := round_nearest_even (shr_m mrs1) (loc_of_shr_record mrs1)) in *.
  destruct (shr_fexp_bound mr e1 loc_Exact Hr0 He1 Hr1) as (mrs2 & e2 & E2 & Hm2 & He2 & Hle2 & _).
  { cbn. discriminate. }
  rewrite E2.
  destruct (shr_m mrs2) as [|m|m] eqn:Em; [split; reflexivity | | lia].
  replace (e2 <=? emax - prec) with true by (symmetry; apply Z.leb_le; unfold emax, prec; lia).
  split; [reflexivity |].
  unfold sf_quarter. apply SFleb_finite_pos.
  destruct (Z_lt_ge_dec e2 (-54)) as [|Hge]; [left; assumption | right].
  assert (e2 = -54) by lia. subst e2. split; [reflexivity |].
  exact Hle2.
Qed.

Lemma SFdiv_finite_100_bound m e :
  bounded prec emax m e = true ->
  e < -48 \/ (e = -48 /\ Zpos m <= 7036874417766400) ->
  SFleb (S754_zero false) (SFdiv prec emax (S754_finite false m e) sf_100) = true /\
  SFleb (SFdiv prec emax (S754_finite false m e) sf_100) sf_quarter = true.
Proof.
  intros Hb H25. unfold bounded, canonical_mantissa in Hb.
  apply andb_prop in Hb. destruct Hb as [Hc _].
  apply Z.eqb_eq in Hc. rewrite fexp_eq in Hc.
  destruct (digits2_pos_bounds m) as [_ Hhi].
  set (d := Zpos (digits2_pos m)) in *.
  assert (Hd : d <= 53) by lia.
  assert (Hemin : -1074 <= e) by lia.
  assert (Hm53 : Zpos m < 2 ^ 53).
  { eapply Z.lt_le_trans; [exact Hhi |]. apply Z.pow_le_mono_r; lia. }
  assert (Hm25 : Zpos m <= 25 * 2 ^ (- e)).
  { destruct H25 as [Hlt|[Heq Hle]].
    - assert (2 ^ 49 <= 2 ^ (- e)) by (apply Z.pow_le_mono_r; lia).
      change (2 ^ 53) with (16 * 2 ^ 49) in Hm53. lia.
    - subst e. change (25 * 2 ^ (- -48)) with 7036874417766400. exact Hle. }
  unfold SFdiv, sf_100, SFdiv_core_binary.
  change (Zdigits2 (Zpos 7036874417766400)) with 53.
  change (Zdigits2 (Zpos m)) with d.
  rewrite fexp_eq.
  set (e' := Z.min (Z.max (d + e - (53 + -46) - 53) (-1074)) (e - -46)).
  assert (He' : -1074 <= e' <= -55) by (unfold e'; lia).
  assert (Hs : 46 <= e - -46 - e') by (unfold e'; lia).
  destruct (e - -46 - e') as [|s|s] eqn:Es; try lia.
  rewrite Z.shiftl_mul_pow2 by lia.
  pose proof (Z.div_mod (Zpos m * 2 ^ Zpos s) (Zpos 7036874417766400) ltac:(lia)) as Hdm.
  pose proof (Z.mod_pos_bound (Zpos m * 2 ^ Zpos s) (Zpos 7036874417766400) ltac:(lia)) as Hmb.
  unfold Z.div, Z.modulo in Hdm, Hmb.
  destruct (Z.div_eucl (Zpos m * 2 ^ Zpos s) (Zpos 7036874417766400)) as [q r].
  cbn [xorb].
  assert (Hs2 : 0 < 2 ^ Zpos s) by (apply Z.pow_pos_nonneg; lia).
  assert (Hpow : 25 * 2 ^ (- e) * 2 ^ Zpos s = 7036874417766400 * 2 ^ (- e' - 2)).
  { change 7036874417766400 with (25 * 2 ^ 48).
    rewrite <- !Z.mul_assoc, <- !Z.pow_add_r by lia. do 2 f_equal. lia. }
  assert (Hnum : Zpos m * 2 ^ Zpos s <= 7036874417766400 * 2 ^ (- e' - 2)).
  { rewrite <- Hpow. apply Z.mul_le_mono_nonneg_r; lia. }
  set (B := 2 ^ (- e' - 2)) in *.
  assert (HB : 0 < B) by (apply Z.pow_pos_nonneg; lia).
  assert (Hq0 : 0 <= q) by nia.
  assert (HqB : q <= B) by nia.
  apply round_aux_bound; try assumption; try lia.
  intros Hl.
  assert (Hr : r <> 0).
  { intros ->. apply Hl. reflexivity. }
  destruct (Z_lt_ge_dec q B) as [|Hge]; [assumption | exfalso].
  assert (q = B) by lia. subst q. lia.
Qed.

Lemma SFleb_finite_pos_inv m1 e1 m2 e2 :
  SFleb (S754_finite false m1 e1) (S754_finite false m2 e2) = true ->
  e1 < e2 \/ (e1 = e2 /\ Zpos m1 <= Zpos m2).
Proof.
  unfold SFleb, SFcompare.
  destruct (Z.compare_spec e1 e2) as [Heq|Hlt|Hgt];
    [right | left; assumption | discriminate].
  split; [assumption |]. fold (Pos.compare m1 m2) in H.
  destruct (Pos.compare_spec m1 m2) as [E|L|G]; try discriminate.
  - subst m1. apply Z.le_refl.
  - apply Pos2Z.pos_lt_pos in L. apply Z.lt_le_incl. exact L.
Qed.

Lemma SFdiv_100_bound x :
  SpecFloat.valid_binary prec emax x = true ->
  SFleb (S754_zero false) x = true -> SFleb x sf_25 = true ->
  SFleb (S754_zero false) (SFdiv prec emax x sf_100) = true /\
  SFleb (SFdiv prec emax x sf_100) sf_quarter = true.
Proof.
  intros Hv H0 H25. destruct x as [s|s| |s m e].
  - destruct s; split; reflexivity.
  - destruct s; discriminate.
  - discriminate.
  - destruct s; [discriminate |].
    apply SFdiv_finite_100_bound; [exact Hv |].
    exact (SFleb_finite_pos_inv _ _ _ _ H25).
Qed.

Lemma float_div_100_range (x : float) :
  (0 <=? x)%float = true -> (x <=? 25)%float = true ->
  (0 <=? x / 100)%float = true /\ (x / 100 <=? 0.25)%float = true.
Proof.
  rewrite !leb_spec, div_spec.
  change (Prim2SF 0) with (S754_zero false).
  change (Prim2SF 25) with sf_25.
  change (Prim2SF 100) with sf_100.
  change (Prim2SF 0.25) with sf_quarter.
  intros H0 H25. apply SFdiv_100_bound; [apply Prim2SF_valid | exact H0 | exact H25].
Qed.

Set Implicit Arguments.

(** C7: the loan flow sends the slider's percentage divided by 100 in
    [annual_interest_rate]; for every binary64 percentage in [0, 25] the
    quotient is in [0, 0.25], and 7.0 gives the float 0.07 itself. *)
Theorem interest_rate_fraction (backend : string -> pyval -> requests.attempt)
    (parses_as_datetime : string -> bool)
    (DataFrame_of_other : pyval -> outcome pd.DataFrame)
    (employee_id : string) (loan_amount slider : float) (loan_term_months : Z) :
  employee_id <> "" ->
  (0 <=? slider)%float = true -> (slider <=? 25)%float = true ->
  sent (loan_flow backend parses_as_datetime DataFrame_of_other
          employee_id loan_amount slider loan_term_months) =
    [mkRequest "POST" "http://backend:8000/calculate_loan"
       (PDict [("employee_id", PStr employee_id);
               ("loan_amount", PFloat loan_amount);
               ("annual_interest_rate", PFloat (slider / 100)%float);
               ("loan_term_months", PInt loan_term_months)])] /\
  (0 <=? slider / 100)%float = true /\
  (slider / 100 <=? 0.25)%float = true /\
  interest_rate 7%float = 0.07%float.
Proof.
  intros Hid H0 H25. split; [| split; [| split]].
  - rewrite (sent_loan_flow _ _ _ _ _ _ Hid). reflexivity.
  - apply (float_div_100_range slider H0 H25).
  - apply (float_div_100_range slider H0 H25).
  - reflexivity.
Qed.

Lemma interest_rate_fraction_witness :
  sent (loan_flow (fun _ _ => requests.Failed (requests.ConnectionError "refused"))
          (fun _ => true) (fun _ => Raise ValueError)
          "EMP001" 1000000%float 7%float 12) =
    [mkRequest "POST" "http://backend:8000/calculate_loan"
       (PDict [("employee_id", PStr "EMP001");
               ("loan_amount", PFloat 1000000%float);
               ("annual_interest_rate", PFloat 0.07%float);
               ("loan_term_months", PInt 12)])].
Proof.
  refine (proj1 (@interest_rate_fraction
            (fun _ _ => requests.Failed (requests.ConnectionError "refused"))
            (fun _ => true) (fun _ => Raise ValueError)
            "EMP001" 1000000%float 7%float 12 _ _ _)).
  - discriminate.
  - reflexivity.
  - reflexivity.
Defined.

(** * Further properties of the script *)

(** ** The eligibility panel on other inputs *)

Lemma display_eligibility_details_falsy (v : pyval) (w : world) :
  truthy v = false -> display_eligibility_details v w = (Ok tt, w).
Proof. intros Hv. unfold display_eligibility_details. rewrite Hv. reflexivity. Qed.

(** For an absent or empty [eligibility_details] (any falsy value) the
    panel leaves the page and the wire as they are and returns. *)
Theorem panel_skipped_when_absent (v : pyval) (w : world) :
  truthy v = false -> display_eligibility_details v w = (Ok tt, w).
Proof. apply display_eligibility_details_falsy. Qed.

Lemma panel_skipped_when_absent_witness :
  display_eligibility_details (PDict []) blank = (Ok tt, blank).
Proof. exact (panel_skipped_when_absent (PDict []) blank eq_refl). Defined.

(** A truthy [eligibility_details] that is not an object (a string, a
    number, a list) gets the heading and the two columns drawn, then the
    first [.get] raises [AttributeError]. *)
Theorem panel_raises_on_non_object (v : pyval) :
  truthy v = true -> (forall entries, v <> PDict entries) ->
  run (display_eligibility_details v) =
    (Raise AttributeError,
     shows [(Main, WSubheader "📋 Eligibility Criteria Check");
            (Main, WColumns [2; 2])]).
Proof.
  intros Hv Hd. unfold run, display_eligibility_details. rewrite Hv. cbn [negb].
  destruct v as [|b|n|x|s|items|entries];
    try reflexivity.
  exfalso. exact (Hd entries eq_refl).
Qed.

Lemma panel_raises_on_non_object_witness :
  run (display_eligibility_details (PStr "eligible")) =
    (Raise AttributeError,
     shows [(Main, WSubheader "📋 Eligibility Criteria Check");
            (Main, WColumns [2; 2])]).
Proof.
  refine (panel_raises_on_non_object (v := PStr "eligible") _ _).
  - reflexivity.
  - intros entries. discriminate.
Defined.

(** The second column holds the "Max Eligible Advance" metric exactly
    when [max_eligible_advance] is not null, a maximum of zero included
    (the metric tests [is not None]; the amount hint tests the truth
    value). *)
Theorem metric_shown_when_not_null (d : EligibilityDetails) :
  drawn_in (Column 2) (page (display_eligibility_details (details_json d))) =
  match max_eligible_advance d with
  | Some x =>
      [WMetric "Max Eligible Advance" [Lit "UGX "; Rendered (PFloat x) ",.2f"]
         (Some "Maximum advance amount you can request based on your salary")]
  | None => []
  end.
Proof.
  unfold page. rewrite page_display_eligibility_details. cbn [snd shows screen].
  destruct d as [sc pf am al mx fc]. unfold eligibility_panel.
  cbn [salary_check pay_frequency_check amount_check advance_limit_check
       max_eligible_advance failed_criteria].
  rewrite !drawn_in_app.
  destruct fc as [|c rest].
  - destruct sc, pf, am, al, mx; reflexivity.
  - rewrite !drawn_in_app. rewrite drawn_in_column_lines.
    destruct sc, pf, am, al, mx as [x|]; try destruct (PrimFloat.eqb x 0);
      reflexivity.
Qed.

(** ** The two flows when the request fails *)

Section Failures.

Variable backend : string -> pyval -> requests.attempt.
Variable parses_as_datetime : string -> bool.
Variable DataFrame_of_other : pyval -> outcome pd.DataFrame.
Variable employee_id : string.
Variables gross_salary requested_advance_amount loan_amount slider : float.
Variable pay_frequency : string.
Variable loan_term_months : Z.

Hypothesis employee_id_given : employee_id <> "".

Let advance : M unit :=
  advance_flow backend employee_id gross_salary pay_frequency requested_advance_amount.
Let loan : M unit :=
  loan_flow backend parses_as_datetime DataFrame_of_other
    employee_id loan_amount slider loan_term_months.
Let advance_request : request :=
  mkRequest "POST" "http://backend:8000/calculate_advance"
    (advance_payload employee_id gross_salary pay_frequency requested_advance_amount).
Let loan_request : request :=
  mkRequest "POST" "http://backend:8000/calculate_loan"
    (loan_payload employee_id loan_amount (interest_rate slider) loan_term_months).

(** When the POST raises, each flow draws its spinner and the one error
    line of [make_request], returns normally and draws nothing else. *)
Theorem flows_stop_on_transport_failure (e : requests.raised) :
  (backend (url advance_request) (json advance_request) = requests.Failed e ->
   run advance =
     (Ok tt, {| container := Main;
                screen := [(Main, WSpinner "Processing...");
                           (Main, WError [Lit (failure_message e)])];
                wire := [advance_request] |})) /\
  (backend (url loan_request) (json loan_request) = requests.Failed e ->
   run loan =
     (Ok tt, {| container := Main;
                screen := [(Main, WSpinner "Calculating...");
                           (Main, WError [Lit (failure_message e)])];
                wire := [loan_request] |})).
Proof.
  split; intros Hb; cbn [url json advance_request loan_request] in Hb.
  - unfold run, advance, advance_flow. rewrite (nonempty_truthy employee_id_given).
    unfold bind, make_request, post, st.spinner, st.emit.
    cbn [negb blank container screen wire app].
    change (FASTAPI_BACKEND_URL ++ "/" ++ "calculate_advance")%string
      with "http://backend:8000/calculate_advance".
    unfold advance_payload in Hb. rewrite Hb. destruct e; reflexivity.
  - unfold run, loan, loan_flow. rewrite (nonempty_truthy employee_id_given).
    unfold bind, make_request, post, st.spinner, st.emit.
    cbn [negb blank container screen wire app].
    change (FASTAPI_BACKEND_URL ++ "/" ++ "calculate_loan")%string
      with "http://backend:8000/calculate_loan".
    rewrite Hb. destruct e; reflexivity.
Qed.

(** When the answer is an object with a truthy [error], each flow draws
    its spinner and "Error: " with [error_message] ("Unknown error" when
    the key is absent), returns normally and draws nothing else, whatever
    the other fields of the answer are. *)
Theorem flows_stop_on_error_flag (entries : list (string * pyval)) (flag : pyval) :
  lookup "error" entries = Some flag -> truthy flag = true ->
  let message :=
    match lookup "error_message" entries with
    | Some m => m
    | None => PStr "Unknown error"
    end in
  (backend (url advance_request) (json advance_request) =
     requests.Responded (PDict entries) ->
   run advance =
     (Ok tt, {| container := Main;
                screen := [(Main, WSpinner "Processing...");
                           (Main, WError (join_parts [s_ "Error: "; field message ""]))];
                wire := [advance_request] |})) /\
  (backend (url loan_request) (json loan_request) =
     requests.Responded (PDict entries) ->
   run loan =
     (Ok tt, {| container := Main;
                screen := [(Main, WSpinner "Calculating...");
                           (Main, WError (join_parts [s_ "Error: "; field message ""]))];
                wire := [loan_request] |})).
Proof.
  intros Hflag Ht message.
  split; intros Hb; cbn [url json advance_request loan_request] in Hb.
  - unfold run, advance, advance_flow. rewrite (nonempty_truthy employee_id_given).
    unfold bind, make_request, post, st.spinner, st.emit.
    cbn [negb blank container screen wire app].
    change (FASTAPI_BACKEND_URL ++ "/" ++ "calculate_advance")%string
      with "http://backend:8000/calculate_advance".
    unfold advance_payload in Hb. rewrite Hb.
    unfold ret, display_result, bind, lift, get. cbn [fst snd truthy].
    rewrite Hflag, Ht. reflexivity.
  - unfold run, loan, loan_flow. rewrite (nonempty_truthy employee_id_given).
    unfold bind, make_request, post, st.spinner, st.emit.
    cbn [negb blank container screen wire app].
    change (FASTAPI_BACKEND_URL ++ "/" ++ "calculate_loan")%string
      with "http://backend:8000/calculate_loan".
    rewrite Hb.
    unfold ret, display_result, bind, lift, get. cbn [fst snd truthy].
    rewrite Hflag, Ht. reflexivity.
Qed.

End Failures.

Lemma flows_stop_on_transport_failure_witness :
  run (loan_flow (fun _ _ => requests.Failed (requests.RequestException "500 Server Error"))
         (fun _ => true) (fun _ => Raise ValueError)
         "EMP001" 1000000%float 7%float 12) =
    (Ok tt, {| container := Main;
               screen := [(Main, WSpinner "Calculating...");
                          (Main, WError [Lit "Request error: 500 Server Error"])];
               wire := [mkRequest "POST" "http://backend:8000/calculate_loan"
                          (loan_payload "EMP001" 1000000%float (interest_rate 7%float) 12)] |}).
Proof.
  refine (proj2 (@flows_stop_on_transport_failure
            (fun _ _ => requests.Failed (requests.RequestException "500 Server Error"))
            (fun _ => true) (fun _ => Raise ValueError)
            "EMP001" 3000000%float 500000%float 1000000%float 7%float "Monthly" 12
            _ (requests.RequestException "500 Server Error")) eq_refl).
  discriminate.
Defined.

Lemma flows_stop_on_error_flag_witness :
  run (advance_flow
         (fun _ _ => requests.Responded
            (PDict [("error", PBool true); ("advance_eligible", PBool true)]))
         "EMP001" 3000000%float "Monthly" 500000%float) =
    (Ok tt, {| container := Main;
               screen := [(Main, WSpinner "Processing...");
                          (Main, WError [Lit "Error: Unknown error"])];
               wire := [mkRequest "POST" "http://backend:8000/calculate_advance"
                          (advance_payload "EMP001" 3000000%float "Monthly"
                             500000%float)] |}).
Proof.
  refine (proj1 (@flows_stop_on_error_flag
            (fun _ _ => requests.Responded
               (PDict [("error", PBool true); ("advance_eligible", PBool true)]))
            (fun _ => true) (fun _ => Raise ValueError)
            "EMP001" 3000000%float 500000%float 1000000%float 7%float "Monthly" 12
            _ [("error", PBool true); ("advance_eligible", PBool true)] (PBool true)
            eq_refl eq_refl) eq_refl).
  discriminate.
Defined.

(** ** The advance flow on a record of the backend *)

Lemma display_eligibility_details_from (d : EligibilityDetails) (w : world) :
  container w = Main ->
  display_eligibility_details (details_json d) w =
    (Ok tt, {| container := Main;
               screen := screen w ++ eligibility_panel d;
               wire := wire w |}).
Proof.
  destruct w as [c scr wi]. cbn [container screen wire]. intros ->.
  destruct d as [sc pf am al mx fc].
  unfold display_eligibility_details, details_json, eligibility_panel.
  cbn [truthy negb salary_check pay_frequency_check amount_check advance_limit_check
       max_eligible_advance failed_criteria].
  destruct fc as [|c rest].
  - destruct sc, pf, am, al, mx;
      unfold for_in, bind, lift, st.within, get, st.subheader, st.columns, st.success,
        st.error, st.metric, st.emit, ret;
      cbn -[PrimFloat.eqb]; rewrite <- ?app_assoc; reflexivity.
  - destruct sc, pf, am, al, mx as [x|]; try destruct (PrimFloat.eqb x 0) eqn:Ex.
    all: unfold for_in, bind, lift, st.within, get; cbn -[for_each PrimFloat.eqb].
    all: try rewrite Ex; cbn -[for_each PrimFloat.eqb].
    all: match goal with
         | |- context [for_each ?l ?b ?w] =>
             replace (for_each l b w) with
               (Ok tt, {| container := container w;
                          screen := screen w
                            ++ map (fun c => (container w, WError [Lit ("• " ++ c)%string]))
                                 (c :: rest);
                          wire := wire w |})
               by (symmetry; apply (for_each_criteria (c :: rest) w))
         end.
    all: unfold st.info, st.emit, ret; cbn -[PrimFloat.eqb];
      rewrite <- ?app_assoc; reflexivity.
Qed.

Section AdvanceAnswer.

Variable backend : string -> pyval -> requests.attempt.
Variable employee_id : string.
Variables gross_salary requested : float.
Variable pay_frequency : string.
Variable a : AdvanceResponse.

Hypothesis employee_id_given : employee_id <> "".
Hypothesis answered :
  backend "http://backend:8000/calculate_advance"
    (advance_payload employee_id gross_salary pay_frequency requested) =
  requests.Responded (advance_response_json a).
Hypothesis no_error : advance_error a <> Some true.

Opaque display_eligibility_details.

(** After an answer that is not an error the advance flow draws the
    eligibility panel when [eligibility_details] is present, then the
    "Final Result" block: for [advance_eligible] true the success status,
    the approved amount (printed from 0 when absent), the confirmation and
    the three next steps; otherwise the status as a warning.  An answer
    with no field at all leaves the page at the spinner. *)
Lemma advance_flow_answered :
  run (advance_flow backend employee_id gross_salary pay_frequency requested) =
  (Ok tt,
   {| container := Main;
      screen :=
        (Main, WSpinner "Processing...")
        :: (if truthy (advance_response_json a)
            then match eligibility_details a with
                 | Some d => eligibility_panel d
                 | None => []
                 end ++ advance_result a
            else []);
      wire := [mkRequest "POST" "http://backend:8000/calculate_advance"
                 (advance_payload employee_id gross_salary pay_frequency requested)] |}).
Proof.
  unfold run, advance_flow. rewrite (nonempty_truthy employee_id_given).
  unfold bind at 1 2. unfold make_request, post, st.spinner, st.emit.
  cbn [negb blank container screen wire app bind].
  unfold bind at 1.
  change (FASTAPI_BACKEND_URL ++ "/" ++ "calculate_advance")%string
    with "http://backend:8000/calculate_advance".
  unfold advance_payload in answered. rewrite answered. unfold ret at 1.
  cbn [fst snd]. cbv beta iota.
  destruct a as [er em de el msg amt].
  cbn [advance_error] in no_error.
  destruct er as [[|]|]; [congruence | |];
    destruct de as [d|].
  all: try (destruct em, el as [[|]|], msg, amt; reflexivity).
  all: destruct em, el as [[|]|], msg, amt;
    unfold display_result, advance_response_json, bind, lift, get, ret;
    cbn -[display_eligibility_details details_json eligibility_panel advance_result];
    match goal with
    | |- context [display_eligibility_details ?v ?w] =>
        rewrite (@display_eligibility_details_from d w eq_refl)
    end;
    unfold advance_result, st.markdown, st.subheader, st.success, st.write, st.info,
      st.warning, st.emit;
    cbn -[eligibility_panel]; rewrite <- ?app_assoc; reflexivity.
Qed.

Transparent display_eligibility_details.

End AdvanceAnswer.

Lemma advance_flow_answered_witness :
  page (advance_flow
          (fun _ _ => requests.Responded
             (advance_response_json
                (mkAdvanceResponse None None None (Some false)
                   (Some "Declined: exceeds limit") None)))
          "EMP001" 3000000%float "Monthly" 500000%float) =
    [(Main, WSpinner "Processing...");
     (Main, WMarkdown "---");
     (Main, WSubheader "🎯 Final Result:");
     (Main, WWarning [Lit "**Status:** Declined: exceeds limit"])].
Proof.
  refine (f_equal (fun x => screen (snd x))
            (@advance_flow_answered
               (fun _ _ => requests.Responded
                  (advance_response_json
                     (mkAdvanceResponse None None None (Some false)
                        (Some "Declined: exceeds limit") None)))
               "EMP001" 3000000%float 500000%float "Monthly"
               (mkAdvanceResponse None None None (Some false)
                  (Some "Declined: exceeds limit") None) _ eq_refl _)).
  - discriminate.
  - discriminate.
Defined.

(** ** Amounts that are present and null *)

Section NullAmounts.

Variable backend : string -> pyval -> requests.attempt.
Variable parses_as_datetime : string -> bool.
Variable DataFrame_of_other : pyval -> outcome pd.DataFrame.
Variable employee_id : string.
Variables gross_salary requested loan_amount slider : float.
Variable pay_frequency : string.
Variable loan_term_months : Z.
Variable entries : list (string * pyval).

Hypothesis employee_id_given : employee_id <> "".

Let value (key : string) (default : pyval) : pyval :=
  match lookup key entries with
  | Some v => v
  | None => default
  end.

(** The default of [.get("approved_advance_amount", 0)] only covers an
    absent key: when the answer carries the key with [null], an eligible
    advance draws the eligibility panel (when the answer has eligibility
    details), its success status, and then the [,.2f] format raises
    [TypeError]; the amount and the next steps are not drawn. *)
Theorem advance_null_amount_raises (details : option EligibilityDetails) :
  backend "http://backend:8000/calculate_advance"
    (advance_payload employee_id gross_salary pay_frequency requested) =
    requests.Responded (PDict entries) ->
  truthy (value "error" PNone) = false ->
  value "eligibility_details" PNone =
    match details with
    | Some d => details_json d
    | None => PNone
    end ->
  truthy (value "advance_eligible" PNone) = true ->
  lookup "approved_advance_amount" entries = Some PNone ->
  run (advance_flow backend employee_id gross_salary pay_frequency requested) =
    (Raise TypeError,
     {| container := Main;
        screen := (Main, WSpinner "Processing...")
                  :: match details with
                     | Some d => eligibility_panel d
                     | None => []
                     end
                  ++ [(Main, WMarkdown "---");
                      (Main, WSubheader "🎯 Final Result:");
                      (Main, WSuccess (join_parts [s_ "**Status:** ";
                                                   field (value "advance_message" PNone) ""]))];
        wire := [mkRequest "POST" "http://backend:8000/calculate_advance"
                   (advance_payload employee_id gross_salary pay_frequency requested)] |}).
Proof.
  unfold value. intros Hb Herr Hdet Hel Hamt.
  assert (Ht : truthy (PDict entries) = true)
    by (destruct entries; [discriminate | reflexivity]).
  unfold run, advance_flow. rewrite (nonempty_truthy employee_id_given).
  unfold bind at 1 2. unfold make_request, post, st.spinner, st.emit.
  cbn [negb blank container screen wire app bind].
  unfold bind at 1.
  change (FASTAPI_BACKEND_URL ++ "/" ++ "calculate_advance")%string
    with "http://backend:8000/calculate_advance".
  unfold advance_payload in Hb. rewrite Hb. unfold ret at 1. cbn [fst snd]. cbv beta iota.
  unfold display_result, bind, lift, get. cbn [truthy].
  rewrite Herr. unfold ret. rewrite Ht, Hdet.
  destruct details as [d|].
  - match goal with
    | |- context [display_eligibility_details (details_json d) ?w] =>
        rewrite (@display_eligibility_details_from d w eq_refl)
    end.
    unfold st.markdown, st.subheader, st.emit. cbn [container screen wire app].
    rewrite Hel, Hamt. cbn [fstring first_format_error format_error String.eqb].
    unfold st.success, st.emit, bind, lift. cbn [container screen wire app fst snd].
    rewrite <- !app_assoc. reflexivity.
  - rewrite (display_eligibility_details_falsy PNone _ eq_refl).
    unfold st.markdown, st.subheader, st.emit. cbn [container screen wire app].
    rewrite Hel, Hamt. reflexivity.
Qed.

(** The same for the loan flow: [loan_total_repayable_amount] present
    and [null] under a truthy [loan_requested] raises [TypeError] after
    the three metrics; the total and the schedule are not drawn. *)
Theorem loan_null_total_raises :
  backend "http://backend:8000/calculate_loan"
    (loan_payload employee_id loan_amount (interest_rate slider) loan_term_months) =
    requests.Responded (PDict entries) ->
  truthy (value "error" PNone) = false ->
  truthy (value "loan_requested" PNone) = true ->
  lookup "loan_total_repayable_amount" entries = Some PNone ->
  run (loan_flow backend parses_as_datetime DataFrame_of_other
         employee_id loan_amount slider loan_term_months) =
    (Raise TypeError,
     {| container := Main;
        screen := [(Main, WSpinner "Calculating...");
                   (Main, WSubheader "Personal Loan Result:");
                   (Main, WSuccess (plain "🎉 Loan calculation successful!"));
                   (Main, WColumns [1; 1; 1]);
                   (Column 1, WMetric "Loan Amount"
                                [Lit "UGX "; Rendered (PFloat loan_amount) ""] None);
                   (Column 2, WMetric "Interest Rate"
                                [Rendered (PFloat (interest_rate slider * 100)%float) ".1f";
                                 Lit "%"] None);
                   (Column 3, WMetric "Loan Term"
                                [Lit (str_int loan_term_months ++ " months")%string] None)];
        wire := [mkRequest "POST" "http://backend:8000/calculate_loan"
                   (loan_payload employee_id loan_amount (interest_rate slider)
                      loan_term_months)] |}).
Proof.
  unfold value. intros Hb Herr Hreq Htot.
  assert (Ht : truthy (PDict entries) = true)
    by (destruct entries; [discriminate | reflexivity]).
  unfold run, loan_flow. rewrite (nonempty_truthy employee_id_given).
  unfold bind at 1 2. unfold make_request, post, st.spinner, st.emit.
  cbn [negb blank container screen wire app bind].
  unfold bind at 1.
  change (FASTAPI_BACKEND_URL ++ "/" ++ "calculate_loan")%string
    with "http://backend:8000/calculate_loan".
  rewrite Hb. unfold ret at 1. cbn [fst snd]. cbv beta iota.
  unfold display_result, bind, lift, get. cbn [truthy].
  rewrite Herr. unfold ret. rewrite Ht, Hreq.
  unfold st.subheader, st.success, st.columns, st.within, st.metric, st.emit.
  cbn -[amortization_schedule interest_rate str_int lookup PrimFloat.mul].
  rewrite Htot. reflexivity.
Qed.

End NullAmounts.

Lemma advance_null_amount_raises_witness :
  run (advance_flow
         (fun _ _ => requests.Responded
            (PDict [("eligibility_details",
                     details_json (mkDetails true true true true (Some 1500000%float) []));
                    ("advance_eligible", PBool true);
                    ("advance_message", PStr "Approved");
                    ("approved_advance_amount", PNone)]))
         "EMP001" 3000000%float "Monthly" 500000%float) =
    (Raise TypeError,
     {| container := Main;
        screen := (Main, WSpinner "Processing...")
                  :: eligibility_panel (mkDetails true true true true (Some 1500000%float) [])
                  ++ [(Main, WMarkdown "---");
                      (Main, WSubheader "🎯 Final Result:");
                      (Main, WSuccess [Lit "**Status:** Approved"])];
        wire := [mkRequest "POST" "http://backend:8000/calculate_advance"
                   (advance_payload "EMP001" 3000000%float "Monthly" 500000%float)] |}).
Proof.
  refine (@advance_null_amount_raises
            (fun _ _ => requests.Responded
               (PDict [("eligibility_details",
                        details_json (mkDetails true true true true (Some 1500000%float) []));
                       ("advance_eligible", PBool true);
                       ("advance_message", PStr "Approved");
                       ("approved_advance_amount", PNone)]))
            "EMP001" 3000000%float 500000%float "Monthly"
            [("eligibility_details",
              details_json (mkDetails true true true true (Some 1500000%float) []));
             ("advance_eligible", PBool true);
             ("advance_message", PStr "Approved");
             ("approved_advance_amount", PNone)]
            _ (Some (mkDetails true true true true (Some 1500000%float) []))
            eq_refl eq_refl eq_refl eq_refl eq_refl).
  discriminate.
Defined.

Lemma loan_null_total_raises_witness :
  result_of (loan_flow
               (fun _ _ => requests.Responded
                  (PDict [("loan_requested", PBool true);
                          ("loan_total_repayable_amount", PNone)]))
               (fun _ => true) (fun _ => Raise ValueError)
               "EMP001" 1000000%float 7%float 12) = Raise TypeError.
Proof.
  refine (f_equal fst
            (@loan_null_total_raises
               (fun _ _ => requests.Responded
                  (PDict [("loan_requested", PBool true);
                          ("loan_total_repayable_amount", PNone)]))
               (fun _ => true) (fun _ => Raise ValueError)
               "EMP001" 1000000%float 7%float 12
               [("loan_requested", PBool true);
                ("loan_total_repayable_amount", PNone)]
               _ eq_refl eq_refl eq_refl eq_refl)).
  discriminate.
Defined.

(** ** A schedule whose dates pandas rejects *)

Lemma traverse_raises A B (f : A -> outcome B) (e : exn) (l : list A) :
  (forall a, In a l -> f a = Raise e \/ exists b, f a = Ok b) ->
  (exists a, In a l /\ f a = Raise e) ->
  traverse f l = Raise e.
Proof.
  induction l as [|a l IH]; intros Hall [bad [Hin Hbad]]; [contradiction |].
  cbn [traverse].
  destruct (Hall a (or_introl eq_refl)) as [Ha|[b Ha]]; rewrite Ha; [reflexivity |].
  rewrite IH; [reflexivity | |].
  - intros x Hx. apply Hall. right. exact Hx.
  - destruct Hin as [Heq|Hin].
    + subst bad. rewrite Ha in Hbad. discriminate.
    + exists bad. split; assumption.
Qed.

Lemma to_datetime_bad_date parses (rs : list AmortizationRow) :
  (exists row, In row rs /\ parses (Payment_Date row) = false) ->
  to_datetime parses (map (fun r => pd.Obj (PStr (Payment_Date r))) rs) = Raise ValueError.
Proof.
  intros [row [Hin Hbad]]. unfold to_datetime. apply traverse_raises.
  - intros c Hc. apply in_map_iff in Hc. destruct Hc as [r [<- _]].
    cbn. destruct (parses (Payment_Date r)); [right; eexists; reflexivity | left; reflexivity].
  - exists (pd.Obj (PStr (Payment_Date row))). split.
    + apply in_map_iff. exists row. split; [reflexivity | exact Hin].
    + cbn. rewrite Hbad. reflexivity.
Qed.

(** When pandas rejects the [Payment_Date] of some row, the schedule
    block draws its heading and raises [ValueError]: neither the table
    nor the download button is drawn, whatever the other rows hold. *)
Theorem schedule_stops_on_bad_date parses other employee_id term
    (rs : list AmortizationRow) (w : world) :
  (exists row, In row rs /\ parses (Payment_Date row) = false) ->
  amortization_schedule parses other (PList (map row_json rs)) employee_id term w =
  (Raise ValueError,
   {| container := container w;
      screen := screen w ++ [(container w, WText (plain "### 📊 Amortization Schedule"))];
      wire := wire w |}).
Proof.
  intros Hbad. destruct rs as [|r0 rest].
  { destruct Hbad as [row [[] _]]. }
  unfold amortization_schedule.
  change (truthy (PList (map row_json (r0 :: rest)))) with true. cbv iota.
  rewrite !DataFrame_rows.
  unfold bind, lift, st.write, st.emit. cbv beta iota zeta.
  change (getitem (raw_frame (r0 :: rest)) "Payment_Date")
    with (Ok (map (fun r => pd.Obj (PStr (Payment_Date r))) (r0 :: rest))).
  cbv beta iota. rewrite (to_datetime_bad_date _ _ Hbad). reflexivity.
Qed.

Lemma schedule_stops_on_bad_date_witness :
  amortization_schedule (fun s => String.eqb s "2024-01-01") (fun _ => Raise ValueError)
    (PList (map row_json
              [mkRow 1 "2024-01-01" 1000000 86527 5833 80693 919306;
               mkRow 2 "not a date" 919306 86527 5362 81164 838141]))
    "EMP001" 12 blank =
  (Raise ValueError, shows [(Main, WText (plain "### 📊 Amortization Schedule"))]).
Proof.
  refine (@schedule_stops_on_bad_date (fun s => String.eqb s "2024-01-01")
            (fun _ => Raise ValueError) "EMP001" 12
            [mkRow 1 "2024-01-01" 1000000 86527 5833 80693 919306;
             mkRow 2 "not a date" 919306 86527 5362 81164 838141] blank _).
  exists (mkRow 2 "not a date" 919306 86527 5362 81164 838141). split.
  - right. left. reflexivity.
  - reflexivity.
Defined.

(** ** The list of all recorded loans *)

Section LedgerFacts.

Variable backend_get : string -> requests.attempt.
Variable pd_to_datetime : list pd.cell -> outcome (list pd.cell).
Variable DataFrame_of_other : pyval -> outcome pd.DataFrame.
Variable strftime : pyval -> string -> string.
Variable str_of_exn : exn -> string.

Let ledger : bool -> M unit :=
  show_all_loans backend_get pd_to_datetime DataFrame_of_other strftime str_of_exn.
Let the_get : request := mkRequest "GET" "http://backend:8000/loans" PNone.

(** The ledger block never raises: unchecked it does nothing; checked it
    sends exactly one GET to /loans and draws exactly one widget (the
    table, the "no loans" line or one error line), whatever the backend
    answers and whatever pandas does with the answer. *)
Theorem ledger_never_raises (w : world) :
  ledger false w = (Ok tt, w) /\
  exists x,
    ledger true w =
      (Ok tt, {| container := container w;
                 screen := screen w ++ [(container w, x)];
                 wire := wire w ++ [the_get] |}).
Proof.
  split; [reflexivity |].
  unfold ledger, show_all_loans, bind, get_request.
  change (FASTAPI_BACKEND_URL ++ "/loans")%string with "http://backend:8000/loans".
  destruct (backend_get "http://backend:8000/loans") as [loans|[e|e|e]];
    try (eexists; reflexivity).
  unfold try_except. destruct (truthy loans); [| eexists; reflexivity].
  unfold bind, lift.
  destruct (DataFrame DataFrame_of_other loans) as [df|e]; [| eexists; reflexivity].
  destruct (format_dates pd_to_datetime strftime date_cols df) as [df'|e];
    [| eexists; reflexivity].
  destruct (format_amount df') as [df''|e]; eexists; reflexivity.
Qed.

(** When the GET raises, a connection error is reported by its own fixed
    line and every other exception by "Error fetching loans: " with its
    text; no table is drawn. *)
Theorem ledger_request_failure (e : requests.raised) (w : world) :
  backend_get "http://backend:8000/loans" = requests.Failed e ->
  ledger true w =
    (Ok tt,
     {| container := container w;
        screen := screen w ++
          [(container w,
            WError [Lit match e with
                        | requests.ConnectionError _ =>
                            "Could not connect to backend to fetch loans."
                        | requests.RequestException detail
                        | requests.Exception detail =>
                            ("Error fetching loans: " ++ detail)%string
                        end])];
        wire := wire w ++ [the_get] |}).
Proof.
  intros Hb. unfold ledger, show_all_loans, bind, get_request.
  change (FASTAPI_BACKEND_URL ++ "/loans")%string with "http://backend:8000/loans".
  rewrite Hb. destruct e; reflexivity.
Qed.

(** An answer with no loans (an empty list, or any other falsy body)
    draws the "No loans recorded yet." line and no table. *)
Theorem ledger_no_loans (loans : pyval) (w : world) :
  backend_get "http://backend:8000/loans" = requests.Responded loans ->
  truthy loans = false ->
  ledger true w =
    (Ok tt,
     {| container := container w;
        screen := screen w ++ [(container w, WInfo (plain "No loans recorded yet."))];
        wire := wire w ++ [the_get] |}).
Proof.
  intros Hb Ht. unfold ledger, show_all_loans, bind, get_request.
  change (FASTAPI_BACKEND_URL ++ "/loans")%string with "http://backend:8000/loans".
  rewrite Hb. unfold try_except. rewrite Ht. reflexivity.
Qed.

(** *** The table for records of the backend *)

(** What the [try] block of the ledger comes to, from the outcome of
    building the table. *)
Lemma ledger_builds (loans : pyval) (w : world) :
  backend_get "http://backend:8000/loans" = requests.Responded loans ->
  truthy loans = true ->
  ledger true w =
    (Ok tt,
     {| container := container w;
        screen := screen w ++
          [(container w,
            match
              match DataFrame DataFrame_of_other loans with
              | Raise e => Raise e
              | Ok df =>
                  match format_dates pd_to_datetime strftime date_cols df with
                  | Raise e => Raise e
                  | Ok df' => format_amount df'
                  end
              end
            with
            | Ok table => WDataframe table true
            | Raise e => WError [Lit ("Error fetching loans: " ++ str_of_exn e)%string]
            end)];
        wire := wire w ++ [the_get] |}).
Proof.
  intros Hb Ht. unfold ledger, show_all_loans, bind, get_request.
  change (FASTAPI_BACKEND_URL ++ "/loans")%string with "http://backend:8000/loans".
  rewrite Hb. unfold try_except. rewrite Ht. unfold bind, lift.
  destruct (DataFrame DataFrame_of_other loans) as [df|e1]; [| reflexivity].
  destruct (format_dates pd_to_datetime strftime date_cols df) as [df'|e2];
    [| reflexivity].
  destruct (format_amount df') as [df''|e3]; reflexivity.
Qed.

(** The date loop on a frame with the amount and the three date columns:
    the columns are reprinted in order, and the first one pandas rejects
    ends the loop. *)
Lemma format_dates_columns (amounts c1 c2 c3 : list pd.cell) :
  format_dates pd_to_datetime strftime date_cols
    (pd.mkFrame None
       [("amount", amounts); ("disbursement_date", c1);
        ("expected_repayment_date", c2); ("created_at", c3)]) =
  match traverse (reprint pd_to_datetime strftime) [c1; c2; c3] with
  | Raise e => Raise e
  | Ok printed =>
      Ok (pd.mkFrame None (("amount", amounts) :: combine date_cols printed))
  end.
Proof.
  unfold date_cols. cbn [traverse].
  cbn [format_dates mem map fst existsb String.eqb Ascii.eqb Bool.eqb orb pd.columns
       getitem column].
  destruct (reprint pd_to_datetime strftime c1) as [p1|e]; [| reflexivity].
  cbn [format_dates mem map fst existsb String.eqb Ascii.eqb Bool.eqb orb pd.columns
       getitem column setitem replace_column pd.index].
  destruct (reprint pd_to_datetime strftime c2) as [p2|e]; [| reflexivity].
  cbn [format_dates mem map fst existsb String.eqb Ascii.eqb Bool.eqb orb pd.columns
       getitem column setitem replace_column pd.index].
  destruct (reprint pd_to_datetime strftime c3) as [p3|e]; [| reflexivity].
  reflexivity.
Qed.

Lemma traverse_reprint (cols parsed : list (list pd.cell)) :
  traverse pd_to_datetime cols = Ok parsed ->
  forallb (forallb datetimelike) parsed = true ->
  traverse (reprint pd_to_datetime strftime) cols =
    Ok (map (map (strftime_cell strftime "%Y-%m-%d")) parsed).
Proof.
  revert parsed. induction cols as [|c cols IH]; intros parsed Hp Hd.
  - cbn in Hp. injection Hp as <-. reflexivity.
  - cbn [traverse] in Hp |- *. unfold reprint at 1.
    destruct (pd_to_datetime c) as [p|e]; [| discriminate].
    destruct (traverse pd_to_datetime cols) as [ps|e]; [| discriminate].
    injection Hp as <-. cbn [forallb] in Hd. apply andb_prop in Hd.
    destruct Hd as [Hd1 Hd2]. unfold dt_strftime. rewrite Hd1.
    rewrite (IH ps eq_refl Hd2). reflexivity.
Qed.

Lemma records_loan_records (rs : list LoanRecord) :
  records (map loan_record_json rs) = Some (map loan_record_entries rs).
Proof.
  induction rs as [|r rest IH]; [reflexivity |].
  cbn [map records loan_record_json]. rewrite IH. reflexivity.
Qed.

Lemma labels_loan_records (r0 : LoanRecord) (rest : list LoanRecord) :
  labels (map loan_record_entries (r0 :: rest)) =
  ["amount"; "disbursement_date"; "expected_repayment_date"; "created_at"].
Proof.
  unfold labels. cbn [map fold_left].
  change (add_keys [] (loan_record_entries r0)) with
    ["amount"; "disbursement_date"; "expected_repayment_date"; "created_at"].
  induction rest as [|r rest IH]; [reflexivity |].
  cbn [map fold_left]. exact IH.
Qed.

Lemma DataFrame_loan_records (r0 : LoanRecord) (rest : list LoanRecord) :
  DataFrame DataFrame_of_other (PList (map loan_record_json (r0 :: rest))) =
  Ok (pd.mkFrame None
        (("amount", map (fun r => pd.Obj (PFloat (amount r))) (r0 :: rest))
         :: combine date_cols (date_columns (r0 :: rest)))).
Proof.
  unfold DataFrame. rewrite records_loan_records, labels_loan_records.
  generalize (r0 :: rest). intros rs. cbn [map].
  rewrite (series_of_floats "amount" loan_record_entries amount rs (fun _ _ => eq_refl)).
  rewrite (series_of_objects "disbursement_date" loan_record_entries
             (fun r => PStr (disbursement_date r)) rs (fun _ _ => eq_refl) (fun _ _ => I)).
  rewrite (series_of_objects "expected_repayment_date" loan_record_entries
             (fun r => PStr (expected_repayment_date r)) rs
             (fun _ _ => eq_refl) (fun _ _ => I)).
  rewrite (series_of_objects "created_at" loan_record_entries
             (fun r => PStr (created_at r)) rs (fun _ _ => eq_refl) (fun _ _ => I)).
  reflexivity.
Qed.

(** The frame of records whose amount is a string: the amount column is
    a column of these strings. *)
Lemma DataFrame_loan_records_text print (r0 : LoanRecord) (rest : list LoanRecord) :
  DataFrame DataFrame_of_other (PList (map (loan_record_text print) (r0 :: rest))) =
  Ok (pd.mkFrame None
        (("amount", map (fun r => pd.Obj (PStr (print (amount r)))) (r0 :: rest))
         :: combine date_cols (date_columns (r0 :: rest)))).
Proof.
  pose (entries := fun r : LoanRecord =>
          [("amount", PStr (print (amount r)));
           ("disbursement_date", PStr (disbursement_date r));
           ("expected_repayment_date", PStr (expected_repayment_date r));
           ("created_at", PStr (created_at r))]).
  assert (Hr : forall rs, records (map (loan_record_text print) rs) = Some (map entries rs)).
  { induction rs as [|r rs IH]; [reflexivity |].
    cbn [map records loan_record_text]. rewrite IH. reflexivity. }
  assert (Hl : labels (map entries (r0 :: rest)) =
               ["amount"; "disbursement_date"; "expected_repayment_date"; "created_at"]).
  { unfold labels. cbn [map fold_left].
    change (add_keys [] (entries r0)) with
      ["amount"; "disbursement_date"; "expected_repayment_date"; "created_at"].
    induction rest as [|r rest IH]; [reflexivity |].
    cbn [map fold_left]. exact IH. }
  unfold DataFrame. rewrite Hr, Hl.
  generalize (r0 :: rest). intros rs. cbn [map].
  rewrite (series_of_objects "amount" entries
             (fun r => PStr (print (amount r))) rs (fun _ _ => eq_refl) (fun _ _ => I)).
  rewrite (series_of_objects "disbursement_date" entries
             (fun r => PStr (disbursement_date r)) rs (fun _ _ => eq_refl) (fun _ _ => I)).
  rewrite (series_of_objects "expected_repayment_date" entries
             (fun r => PStr (expected_repayment_date r)) rs
             (fun _ _ => eq_refl) (fun _ _ => I)).
  rewrite (series_of_objects "created_at" entries
             (fun r => PStr (created_at r)) rs (fun _ _ => eq_refl) (fun _ _ => I)).
  reflexivity.
Qed.

Lemma apply_format_currency_of A (f : A -> float) (l : list A) :
  apply (map (fun a => pd.Obj (PFloat (f a))) l) format_currency =
  Ok (map (fun a => money (f a)) l).
Proof. unfold apply. apply traverse_map. intros a _. reflexivity. Qed.

Lemma format_amount_floats A (f : A -> float) (l : list A)
    (others : list (string * list pd.cell)) :
  format_amount
    (pd.mkFrame None (("amount", map (fun a => pd.Obj (PFloat (f a))) l) :: others)) =
  Ok (pd.mkFrame None (("amount", map (fun a => money (f a)) l) :: others)).
Proof.
  unfold format_amount.
  cbn [mem map fst existsb String.eqb Ascii.eqb Bool.eqb orb pd.columns getitem column].
  rewrite apply_format_currency_of. reflexivity.
Qed.

Lemma format_amount_text A (f : A -> string) (a0 : A) (l : list A)
    (others : list (string * list pd.cell)) :
  format_amount
    (pd.mkFrame None (("amount", map (fun a => pd.Obj (PStr (f a))) (a0 :: l)) :: others)) =
  Raise ValueError.
Proof. reflexivity. Qed.

(** An exception raised while the table is built is caught, and the
    block draws "Error fetching loans: " with its text in place of the
    table.  This is so when the answer is not a list of records and the
    frame constructor raises on it; when it is a list of loan records and
    pandas rejects one of the three date columns, or gives for it a column
    without the [dt] accessor; and when the loan records carry their
    amount as a string, which the amount format refuses with
    [ValueError] once the dates are reprinted. *)
Theorem ledger_table_failure (loans : pyval) (e : exn) (w : world) :
  backend_get "http://backend:8000/loans" = requests.Responded loans ->
  truthy loans = true ->
  (match loans with
   | PList items => records items = None
   | _ => True
   end /\ DataFrame_of_other loans = Raise e)
  \/ (exists rs,
        loans = PList (map loan_record_json rs) /\
        traverse (reprint pd_to_datetime strftime) (date_columns rs) = Raise e)
  \/ (exists rs print printed,
        loans = PList (map (loan_record_text print) rs) /\
        traverse (reprint pd_to_datetime strftime) (date_columns rs) = Ok printed /\
        e = ValueError) ->
  ledger true w =
    (Ok tt,
     {| container := container w;
        screen := screen w ++
          [(container w, WError [Lit ("Error fetching loans: " ++ str_of_exn e)%string])];
        wire := wire w ++ [the_get] |}).
Proof.
  intros Hb Ht Hcase. rewrite (ledger_builds w Hb Ht).
  destruct Hcase as [[Hshape Hraise]|[[rs [-> Hdates]]|[rs [print [printed [-> [Hdates ->]]]]]]].
  - assert (Hd : DataFrame DataFrame_of_other loans = Raise e).
    { unfold DataFrame. destruct loans; try exact Hraise. rewrite Hshape. exact Hraise. }
    rewrite Hd. reflexivity.
  - destruct rs as [|r0 rest]; [discriminate Ht |].
    rewrite DataFrame_loan_records. unfold date_columns at 1. cbn [combine date_cols].
    rewrite format_dates_columns. fold (date_columns (r0 :: rest)).
    rewrite Hdates. reflexivity.
  - destruct rs as [|r0 rest]; [discriminate Ht |].
    rewrite DataFrame_loan_records_text. unfold date_columns at 1. cbn [combine date_cols].
    rewrite format_dates_columns. fold (date_columns (r0 :: rest)).
    rewrite Hdates.
    rewrite (format_amount_text (fun r => print (amount r)) r0 rest). reflexivity.
Qed.

(** For a non-empty list of loan records whose three date columns pandas
    converts to dates, the ledger draws one table: the columns in the
    order of the record, the amount as a "UGX ..." string and each date
    reprinted by [strftime] as year-month-day, a date pandas holds as
    missing being left empty; it sends its one GET and returns. *)
Theorem ledger_shows_table (rs : list LoanRecord) (parsed : list (list pd.cell))
    (w : world) :
  backend_get "http://backend:8000/loans" =
    requests.Responded (PList (map loan_record_json rs)) ->
  rs <> [] ->
  traverse pd_to_datetime (date_columns rs) = Ok parsed ->
  forallb (forallb datetimelike) parsed = true ->
  ledger true w =
    (Ok tt,
     {| container := container w;
        screen := screen w ++ [(container w, WDataframe (ledger_table strftime rs parsed) true)];
        wire := wire w ++ [the_get] |}).
Proof.
  intros Hb Hne Hp Hd.
  destruct rs as [|r0 rest]; [congruence |].
  rewrite (ledger_builds w Hb eq_refl).
  rewrite DataFrame_loan_records. unfold date_columns at 1. cbn [combine date_cols].
  rewrite format_dates_columns. fold (date_columns (r0 :: rest)).
  rewrite (traverse_reprint _ Hp Hd).
  rewrite (format_amount_floats amount). reflexivity.
Qed.

End LedgerFacts.

Lemma ledger_request_failure_witness :
  show_all_loans (fun _ => requests.Failed (requests.ConnectionError "refused"))
    (iso_to_datetime []) (fun _ => Raise ValueError) iso_strftime (fun _ => "")
    true blank =
  (Ok tt,
   {| container := Main;
      screen := [(Main, WError [Lit "Could not connect to backend to fetch loans."])];
      wire := [mkRequest "GET" "http://backend:8000/loans" PNone] |}).
Proof.
  exact (@ledger_request_failure
           (fun _ => requests.Failed (requests.ConnectionError "refused"))
           (iso_to_datetime []) (fun _ => Raise ValueError) iso_strftime (fun _ => "")
           (requests.ConnectionError "refused") blank eq_refl).
Defined.

Lemma ledger_no_loans_witness :
  show_all_loans (fun _ => requests.Responded (PList []))
    (iso_to_datetime []) (fun _ => Raise ValueError) iso_strftime (fun _ => "")
    true blank =
  (Ok tt,
   {| container := Main;
      screen := [(Main, WInfo (plain "No loans recorded yet."))];
      wire := [mkRequest "GET" "http://backend:8000/loans" PNone] |}).
Proof.
  exact (@ledger_no_loans
           (fun _ => requests.Responded (PList []))
           (iso_to_datetime []) (fun _ => Raise ValueError) iso_strftime (fun _ => "")
           (PList []) blank eq_refl eq_refl).
Defined.

Lemma ledger_table_failure_witness :
  show_all_loans
    (fun _ => requests.Responded
       (PList (map (loan_record_text (fun _ => "500000.00"))
                 [mkLoanRecord 500000 "2024-01-05" "2024-02-05" "2024-01-05"])))
    (iso_to_datetime ["2024-01-05"; "2024-02-05"]) (fun _ => Raise ValueError)
    iso_strftime (fun _ => "Cannot specify ',' with 's'.")
    true blank =
  (Ok tt,
   {| container := Main;
      screen := [(Main, WError [Lit "Error fetching loans: Cannot specify ',' with 's'."])];
      wire := [mkRequest "GET" "http://backend:8000/loans" PNone] |}).
Proof.
  refine (@ledger_table_failure
            (fun _ => requests.Responded
               (PList (map (loan_record_text (fun _ => "500000.00"))
                         [mkLoanRecord 500000 "2024-01-05" "2024-02-05" "2024-01-05"])))
            (iso_to_datetime ["2024-01-05"; "2024-02-05"]) (fun _ => Raise ValueError)
            iso_strftime (fun _ => "Cannot specify ',' with 's'.")
            (PList (map (loan_record_text (fun _ => "500000.00"))
                      [mkLoanRecord 500000 "2024-01-05" "2024-02-05" "2024-01-05"]))
            ValueError blank eq_refl eq_refl _).
  right. right.
  exists [mkLoanRecord 500000 "2024-01-05" "2024-02-05" "2024-01-05"].
  exists (fun _ => "500000.00").
  exists [[pd.Str [Lit "2024-01-05"]]; [pd.Str [Lit "2024-02-05"]];
          [pd.Str [Lit "2024-01-05"]]].
  split; [reflexivity |]. split; reflexivity.
Defined.

Lemma ledger_shows_table_witness :
  show_all_loans
    (fun _ => requests.Responded
       (PList (map loan_record_json
                 [mkLoanRecord 500000 "2024-01-05" "2024-02-05" "2024-01-05";
                  mkLoanRecord 250000 "2024-03-01" "2024-04-01" "2024-03-01"])))
    (iso_to_datetime ["2024-01-05"; "2024-02-05"; "2024-03-01"; "2024-04-01"])
    (fun _ => Raise ValueError) iso_strftime (fun _ => "") true blank =
  (Ok tt,
   {| container := Main;
      screen :=
        [(Main,
          WDataframe
            (pd.mkFrame None
               [("amount", [money 500000; money 250000]);
                ("disbursement_date",
                 [pd.Str [Lit "2024-01-05"]; pd.Str [Lit "2024-03-01"]]);
                ("expected_repayment_date",
                 [pd.Str [Lit "2024-02-05"]; pd.Str [Lit "2024-04-01"]]);
                ("created_at",
                 [pd.Str [Lit "2024-01-05"]; pd.Str [Lit "2024-03-01"]])])
            true)];
      wire := [mkRequest "GET" "http://backend:8000/loans" PNone] |}).
Proof.
  refine (@ledger_shows_table
            (fun _ => requests.Responded
               (PList (map loan_record_json
                         [mkLoanRecord 500000 "2024-01-05" "2024-02-05" "2024-01-05";
                          mkLoanRecord 250000 "2024-03-01" "2024-04-01" "2024-03-01"])))
            (iso_to_datetime ["2024-01-05"; "2024-02-05"; "2024-03-01"; "2024-04-01"])
            (fun _ => Raise ValueError) iso_strftime (fun _ => "")
            [mkLoanRecord 500000 "2024-01-05" "2024-02-05" "2024-01-05";
             mkLoanRecord 250000 "2024-03-01" "2024-04-01" "2024-03-01"]
            [[pd.Timestamp (PStr "2024-01-05"); pd.Timestamp (PStr "2024-03-01")];
             [pd.Timestamp (PStr "2024-02-05"); pd.Timestamp (PStr "2024-04-01")];
             [pd.Timestamp (PStr "2024-01-05"); pd.Timestamp (PStr "2024-03-01")]]
            blank eq_refl _ eq_refl eq_refl).
  discriminate.
Defined.

(** ** The four checks on any object *)

(** For every non-empty object received as [eligibility_details],
    whatever its keys and values, the panel starts with the heading, the
    two columns and the four check lines; a check is drawn as met exactly
    when its key holds a truthy value, so a missing key, [null], [false]
    or 0 is drawn as not met.  This holds also when a later statement of
    the panel raises. *)
Theorem checks_read_by_truth_value (entries : list (string * pyval)) :
  entries <> [] ->
  let met (key : string) : bool :=
    truthy (match lookup key entries with Some v => v | None => PNone end) in
  exists more,
    page (display_eligibility_details (PDict entries)) =
      [(Main, WSubheader "📋 Eligibility Criteria Check");
       (Main, WColumns [2; 2]);
       (Column 1, if met "salary_check"
                  then WSuccess (plain "✅ Minimum salary requirement met")
                  else WError (plain "❌ Minimum salary requirement not met"));
       (Column 1, if met "pay_frequency_check"
                  then WSuccess (plain "✅ Valid pay frequency")
                  else WError (plain "❌ Invalid pay frequency"));
       (Column 1, if met "amount_check"
                  then WSuccess (plain "✅ Valid advance amount")
                  else WError (plain "❌ Invalid advance amount"));
       (Column 1, if met "advance_limit_check"
                  then WSuccess (plain "✅ Within advance limit")
                  else WError (plain "❌ Exceeds maximum advance limit"))]
      ++ more.
Proof.
  intros Hne met. subst met. cbv beta.
  assert (Ht : truthy (PDict entries) = true)
    by (destruct entries; [congruence | reflexivity]).
  unfold page, run, display_eligibility_details. rewrite Ht. cbn [negb].
  unfold bind at 1. unfold st.subheader at 1. unfold st.emit at 1.
  cbn [blank container screen wire app]. cbv beta iota.
  unfold bind at 1. unfold st.columns at 1. unfold st.emit at 1.
  cbn [container screen wire app]. cbv beta iota.
  unfold bind at 1.
  match goal with
  | |- context [st.within (Column 1) ?body ?w0] =>
      assert (Hcol :
        st.within (Column 1) body w0 =
        (Ok tt,
         {| container := Main;
            screen :=
              [(Main, WSubheader "📋 Eligibility Criteria Check");
               (Main, WColumns [2; 2]);
               (Column 1,
                if truthy (match lookup "salary_check" entries with
                           | Some v => v | None => PNone end)
                then WSuccess (plain "✅ Minimum salary requirement met")
                else WError (plain "❌ Minimum salary requirement not met"));
               (Column 1,
                if truthy (match lookup "pay_frequency_check" entries with
                           | Some v => v | None => PNone end)
                then WSuccess (plain "✅ Valid pay frequency")
                else WError (plain "❌ Invalid pay frequency"));
               (Column 1,
                if truthy (match lookup "amount_check" entries with
                           | Some v => v | None => PNone end)
                then WSuccess (plain "✅ Valid advance amount")
                else WError (plain "❌ Invalid advance amount"));
               (Column 1,
                if truthy (match lookup "advance_limit_check" entries with
                           | Some v => v | None => PNone end)
                then WSuccess (plain "✅ Within advance limit")
                else WError (plain "❌ Exceeds maximum advance limit"))];
            wire := [] |}));
      [| rewrite Hcol; clear Hcol ]
  end.
  - unfold st.within, bind, lift, get.
    destruct (truthy (match lookup "salary_check" entries with
                      | Some v => v | None => PNone end)),
             (truthy (match lookup "pay_frequency_check" entries with
                      | Some v => v | None => PNone end)),
             (truthy (match lookup "amount_check" entries with
                      | Some v => v | None => PNone end)),
             (truthy (match lookup "advance_limit_check" entries with
                      | Some v => v | None => PNone end));
      reflexivity.
  - cbv beta iota.
    match goal with
    | |- context [screen (snd (?rest ?w1))] =>
        assert (Hk : keeps rest) by keeps_solve;
        destruct (Hk w1) as [more Hmore]; exists more; exact Hmore
    end.
Qed.

Lemma checks_read_by_truth_value_witness :
  exists more,
    page (display_eligibility_details
            (PDict [("salary_check", PBool true); ("amount_check", PNone)])) =
      [(Main, WSubheader "📋 Eligibility Criteria Check");
       (Main, WColumns [2; 2]);
       (Column 1, WSuccess (plain "✅ Minimum salary requirement met"));
       (Column 1, WError (plain "❌ Invalid pay frequency"));
       (Column 1, WError (plain "❌ Invalid advance amount"));
       (Column 1, WError (plain "❌ Exceeds maximum advance limit"))]
      ++ more.
Proof.
  refine (@checks_read_by_truth_value
            [("salary_check", PBool true); ("amount_check", PNone)] _).
  discriminate.
Defined.

(** ** A schedule without the [Payment_Date] column *)

Lemma mem_true_iff name names : mem name names = true <-> In name names.
Proof.
  unfold mem. rewrite existsb_exists. split.
  - intros [x [Hin Heq]]. apply String.eqb_eq in Heq. subst x. exact Hin.
  - intros Hin. exists name. split; [exact Hin | apply String.eqb_refl].
Qed.

Lemma add_keys_in key (es : list (string * pyval)) : forall seen,
  In key (add_keys seen es) <-> In key seen \/ In key (map fst es).
Proof.
  induction es as [|[k v] es IH]; intros seen; cbn [add_keys map fst In].
  - tauto.
  - rewrite IH. destruct (mem k seen) eqn:Hm.
    + apply mem_true_iff in Hm. split; [tauto |].
      intros [H|[H|H]]; [tauto | subst k; tauto | tauto].
    + rewrite in_app_iff. cbn [In]. tauto.
Qed.

Lemma labels_in key (rs : list (list (string * pyval))) :
  In key (labels rs) <-> exists r, In r rs /\ In key (map fst r).
Proof.
  unfold labels.
  assert (H : forall seen,
            In key (fold_left add_keys rs seen) <->
            In key seen \/ exists r, In r rs /\ In key (map fst r)).
  { induction rs as [|r rs IH]; intros seen; cbn [fold_left].
    - split; [tauto | intros [H|[r [[] _]]]; exact H].
    - rewrite IH, add_keys_in. split.
      + intros [[H|H]|[r' [Hin Hk]]].
        * left. exact H.
        * right. exists r. split; [left; reflexivity | exact H].
        * right. exists r'. split; [right; exact Hin | exact Hk].
      + intros [H|[r' [[Heq|Hin] Hk]]].
        * left. left. exact H.
        * subst r'. left. right. exact Hk.
        * right. exists r'. split; assumption. }
  rewrite H. cbn [In]. tauto.
Qed.

Lemma column_absent name (f : string -> list pd.cell) (names : list string) :
  ~ In name names -> column name (map (fun key => (key, f key)) names) = None.
Proof.
  induction names as [|k names IH]; intros Hn; [reflexivity |].
  cbn [map column]. destruct (String.eqb k name) eqn:E.
  - apply String.eqb_eq in E. subst k. exfalso. apply Hn. left. reflexivity.
  - apply IH. intros Hin. apply Hn. right. exact Hin.
Qed.

(** When the schedule is a non-empty list of records none of which has
    the key "Payment_Date", the schedule block draws its heading and
    [df["Payment_Date"]] raises [KeyError]: no table and no download
    button follow. *)
Theorem schedule_needs_payment_date parses other employee_id term
    (items : list pyval) (rs : list (list (string * pyval))) (w : world) :
  items <> [] ->
  records items = Some rs ->
  (forall r, In r rs -> ~ In "Payment_Date" (map fst r)) ->
  amortization_schedule parses other (PList items) employee_id term w =
  (Raise (KeyError "Payment_Date"),
   {| container := container w;
      screen := screen w ++ [(container w, WText (plain "### 📊 Amortization Schedule"))];
      wire := wire w |}).
Proof.
  intros Hne Hrec Hkey.
  assert (Ht : truthy (PList items) = true)
    by (destruct items; [congruence | reflexivity]).
  unfold amortization_schedule. rewrite Ht.
  unfold bind at 1. unfold st.write at 1. unfold st.emit at 1. cbv beta iota.
  unfold bind at 1. unfold lift at 1. unfold DataFrame at 1. rewrite Hrec. cbv beta iota.
  unfold bind at 1. unfold lift at 1. unfold getitem. cbn [pd.columns].
  rewrite column_absent; [reflexivity |].
  intros Hin. apply labels_in in Hin. destruct Hin as [r [Hr Hk]].
  exact (Hkey r Hr Hk).
Qed.

Lemma schedule_needs_payment_date_witness :
  amortization_schedule (fun _ => true) (fun _ => Raise ValueError)
    (PList [PDict [("Payment_Number", PInt 1); ("Monthly_Payment", PFloat 86527)]])
    "EMP001" 12 blank =
  (Raise (KeyError "Payment_Date"),
   shows [(Main, WText (plain "### 📊 Amortization Schedule"))]).
Proof.
  refine (@schedule_needs_payment_date (fun _ => true) (fun _ => Raise ValueError)
            "EMP001" 12
            [PDict [("Payment_Number", PInt 1); ("Monthly_Payment", PFloat 86527)]]
            [[("Payment_Number", PInt 1); ("Monthly_Payment", PFloat 86527)]]
            blank _ eq_refl _).
  - discriminate.
  - intros r [<-|[]]. cbn. intros [H|[H|[]]]; discriminate.
Defined.
